(** * webassets.filter.cssrewrite: the CSS url() rewriting filter

    A shallow embedding of [CSSRewriteFilter] (Python 2) and the
    properties of its per-URL operation [replace_url].

    Python [str] values are [string]; a call that may raise returns a
    [result]; the attributes that [input] sets conditionally
    ([replace_dict], [external_assets]) are optional fields, and reading
    one that was never set raises [AttributeError] as it does in Python. *)

From Stdlib Require Import String Ascii List Bool Arith ZArith Lia.
Import ListNotations.
Local Open Scope list_scope.
Local Open Scope string_scope.

(* ===================================================================== *)
(** ** Exceptions and the result monad *)
(* ===================================================================== *)

(** The exceptions the modelled code can see.  [Raised] stands for any
    other exception object a collaborator raises (class name, message). *)
Inductive exn : Type :=
| AttributeError (attr : string)
| KeyError (key : string)
| ValueError (msg : string)
| Raised (cls msg : string).

Definition result (A : Type) : Type := (exn + A)%type.

Definition ok {A : Type} (a : A) : result A := inr a.
Definition raise {A : Type} (e : exn) : result A := inl e.

Definition bind {A B : Type} (m : result A) (k : A -> result B) : result B :=
  match m with
  | inl e => inl e
  | inr a => k a
  end.

Declare Scope result_scope.
Delimit Scope result_scope with result.
Notation "x <- m ;; k" := (bind m (fun x => k))
  (at level 61, m at next level, right associativity) : result_scope.
Local Open Scope result_scope.

(** Reading an attribute that may not have been set on the instance. *)
Definition getattr {A : Type} (name : string) (slot : option A) : result A :=
  match slot with
  | Some a => ok a
  | None => raise (AttributeError name)
  end.

(* ===================================================================== *)
(** ** Python [str] and [list] operations used by the code *)
(* ===================================================================== *)

Module Py.

(** [s.startswith(p)] *)
Fixpoint startswith (s p : string) {struct p} : bool :=
  match p with
  | EmptyString => true
  | String a p' =>
      match s with
      | EmptyString => false
      | String b s' => Ascii.eqb a b && startswith s' p'
      end
  end.

(** [s[n:]] for [0 <= n] *)
Fixpoint drop (n : nat) (s : string) : string :=
  match n with
  | O => s
  | S n' => match s with
            | EmptyString => EmptyString
            | String _ s' => drop n' s'
            end
  end.

(** [s[:n]] for [0 <= n] *)
Fixpoint take (n : nat) (s : string) : string :=
  match n with
  | O => EmptyString
  | S n' => match s with
            | EmptyString => EmptyString
            | String a s' => String a (take n' s')
            end
  end.

(** A slice bound as Python normalises it: negative bounds count from
    the end, and every bound is clipped to the string. *)
Definition bound (i : Z) (s : string) : nat :=
  if (i <? 0)%Z then Z.to_nat (Z.max 0 (Z.of_nat (String.length s) + i))
  else Nat.min (Z.to_nat i) (String.length s).

(** [s[:i]] and [s[i:]] for any integer [i] *)
Definition slice_to (i : Z) (s : string) : string := take (bound i s) s.
Definition slice_from (i : Z) (s : string) : string := drop (bound i s) s.

(** [s.endswith(p)] *)
Definition endswith (s p : string) : bool :=
  (String.length p <=? String.length s)%nat
  && String.eqb (drop (String.length s - String.length p) s) p.

(** Python's truth value of a [str]: the empty string is false. *)
Definition truthy (s : string) : bool :=
  match s with
  | EmptyString => false
  | String _ _ => true
  end.

(** Truth value of an attribute that is [None] or a [str]. *)
Definition truthy_opt (o : option string) : bool :=
  match o with
  | None => false
  | Some s => truthy s
  end.

(** [c in s] for a one-character [c] *)
Fixpoint contains (c : ascii) (s : string) : bool :=
  match s with
  | EmptyString => false
  | String a s' => Ascii.eqb a c || contains c s'
  end.

(** [s.find(c)] for a one-character [c], counted from position [from];
    [-1] when there is none. *)
Fixpoint find_from (c : ascii) (from : nat) (s : string) : Z :=
  match s with
  | EmptyString => (-1)%Z
  | String a s' =>
      if Ascii.eqb a c then Z.of_nat from
      else find_from c (S from) s'
  end.

Definition find (c : ascii) (s : string) : Z := find_from c 0 s.

(** [s.find(c, start)] *)
Definition find_at (c : ascii) (start : nat) (s : string) : Z :=
  find_from c start (drop start s).

(** [s.rfind(c)] *)
Fixpoint rfind_from (c : ascii) (from : nat) (s : string) : Z :=
  match s with
  | EmptyString => (-1)%Z
  | String a s' =>
      let later := rfind_from c (S from) s' in
      if (0 <=? later)%Z then later
      else if Ascii.eqb a c then Z.of_nat from else (-1)%Z
  end.

Definition rfind (c : ascii) (s : string) : Z := rfind_from c 0 s.

(** [s.split(c)]: always at least one piece *)
Fixpoint split (c : ascii) (s : string) : list string :=
  match s with
  | EmptyString => [EmptyString]
  | String a s' =>
      if Ascii.eqb a c then EmptyString :: split c s'
      else match split c s' with
           | [] => [String a EmptyString]
           | w :: ws => String a w :: ws
           end
  end.

(** [s.split(c, 1)] when [c in s]: the text before and after the first
    occurrence; without an occurrence the whole text and the empty string. *)
Fixpoint split1 (c : ascii) (s : string) : string * string :=
  match s with
  | EmptyString => (EmptyString, EmptyString)
  | String a s' =>
      if Ascii.eqb a c then (EmptyString, s')
      else let '(u, v) := split1 c s' in (String a u, v)
  end.

(** [sep.join(l)] *)
Fixpoint join (sep : string) (l : list string) : string :=
  match l with
  | [] => EmptyString
  | [w] => w
  | w :: ws => w ++ sep ++ join sep ws
  end.

(** [c.lower()] *)
Definition lower_ascii (c : ascii) : ascii :=
  let n := nat_of_ascii c in
  if ((65 <=? n) && (n <=? 90))%nat then ascii_of_nat (n + 32) else c.

Fixpoint lower (s : string) : string :=
  match s with
  | EmptyString => EmptyString
  | String a s' => String (lower_ascii a) (lower s')
  end.

(** [s.rstrip(c)] for a one-character [c] *)
Fixpoint rstrip (c : ascii) (s : string) : string :=
  match s with
  | EmptyString => EmptyString
  | String a s' =>
      match rstrip c s' with
      | EmptyString => if Ascii.eqb a c then EmptyString else String a EmptyString
      | t => String a t
      end
  end.

(** [x in l] for a list of strings *)
Definition mem (x : string) (l : list string) : bool :=
  existsb (String.eqb x) l.

(** [all(c in chars for c in s)] *)
Fixpoint all_in (chars : string) (s : string) : bool :=
  match s with
  | EmptyString => true
  | String a s' => contains a chars && all_in chars s'
  end.

End Py.

(* ===================================================================== *)
(** ** The filter's collaborators *)
(* ===================================================================== *)

(** The functions the module imports ([urlparse], [urlpath],
    [webassets.utils], [base], [os.path]).  None of them is defined in
    the module, so the filter is stated over any implementation; the
    concrete models further down are the instance the examples run on.
    [urlparse.urljoin] can raise on malformed URL syntax.
    [super_init] is the base class constructor, which [__init__] calls
    without arguments. *)
Class Imports : Type := {
  urlparse_urljoin : string -> string -> result string;
  urlpath_pathjoin : string -> string -> string;
  urlpath_relpath : string -> string -> string;
  urlpath_relpathto : string -> string -> string -> string;
  addsep : string -> string;
  path2url : string -> string;
  os_path_normpath : string -> string;
  os_path_join : string -> string -> string;
  common_path_prefix : list string -> string;
  super_init : result unit
}.

(** An [ExternalAssets] object: the versioned-asset lookup. *)
Record ExternalAssets : Type := {
  versioned_folder : string -> result string
}.

(** The environment the filter is attached to ([self.env]). *)
Record Environment : Type := {
  directory : string;
  url : option string;                         (* [None] or a [str] *)
  absurl : string -> string;
  env_getitem : string -> result ExternalAssets (* [env.__getitem__] *)
}.

(** The [replace] constructor argument: [False] (the default), [None],
    or a mapping, given by its items in iteration order. *)
Inductive ReplaceArg : Type :=
| ReplaceFalse
| ReplaceNone
| ReplaceMapping (items : list (string * string)).

(** The [external] constructor argument: [False], [None], or the name
    under which an [ExternalAssets] object is registered. *)
Inductive ExternalArg : Type :=
| ExternalFalse
| ExternalNone
| ExternalName (name : string).

(** [x not in (False, None)] *)
Definition replace_not_in_False_None (r : ReplaceArg) : bool :=
  match r with
  | ReplaceFalse | ReplaceNone => false
  | ReplaceMapping _ => true
  end.

Definition external_not_in_False_None (x : ExternalArg) : bool :=
  match x with
  | ExternalFalse | ExternalNone => false
  | ExternalName _ => true
  end.

(** [x is not False] *)
Definition replace_is_not_False (r : ReplaceArg) : bool :=
  match r with
  | ReplaceFalse => false
  | ReplaceNone | ReplaceMapping _ => true
  end.

Definition external_is_not_False (x : ExternalArg) : bool :=
  match x with
  | ExternalFalse => false
  | ExternalNone | ExternalName _ => true
  end.

(** [OrderedDict]: items in first-insertion order; assigning to a key
    that is present replaces its value in place. *)
Definition OrderedDict : Type := list (string * string).

Fixpoint od_setitem (d : OrderedDict) (k v : string) : OrderedDict :=
  match d with
  | [] => [(k, v)]
  | (k', v') :: d' =>
      if String.eqb k' k then (k, v) :: d'
      else (k', v') :: od_setitem d' k v
  end.

(** The instance.  [source_*] and [output_*] are the Source and Output
    contexts the base class binds before it calls [replace_url]. *)
Record CSSRewriteFilter : Type := {
  replace : ReplaceArg;
  external : ExternalArg;
  env : Environment;
  replace_dict : option OrderedDict;
  external_assets : option ExternalAssets;
  source_path : string;
  source_url : string;
  output_path : string;
  output_url : string
}.

(** The instance as the constructor leaves it: [replace] and
    [external] are its only attributes of this class. *)
Record Constructed : Type := {
  c_replace : ReplaceArg;
  c_external : ExternalArg
}.

(** The contexts and environment an instance is used with. *)
Record Binding : Type := {
  b_env : Environment;
  b_source_path : string;
  b_source_url : string;
  b_output_path : string;
  b_output_url : string
}.

Definition set_replace_dict (self : CSSRewriteFilter) (d : OrderedDict)
  : CSSRewriteFilter :=
  {| replace := replace self; external := external self; env := env self;
     replace_dict := Some d; external_assets := external_assets self;
     source_path := source_path self; source_url := source_url self;
     output_path := output_path self; output_url := output_url self |}.

Definition set_external_assets (self : CSSRewriteFilter) (a : ExternalAssets)
  : CSSRewriteFilter :=
  {| replace := replace self; external := external self; env := env self;
     replace_dict := replace_dict self; external_assets := Some a;
     source_path := source_path self; source_url := source_url self;
     output_path := output_path self; output_url := output_url self |}.

(* ===================================================================== *)
(** ** CSSRewriteFilter *)
(* ===================================================================== *)

Section Filter.
Context {I : Imports}.

(** [__init__(self, replace=False, external=False)]: the base
    constructor runs first and without arguments, then the two
    arguments are stored. *)
Definition __init__ (replace : ReplaceArg) (external : ExternalArg)
  : result Constructed :=
  _ <- super_init ;;
  ok {| c_replace := replace; c_external := external |}.

(** [unique(self)] *)
Definition unique (self : CSSRewriteFilter) : ReplaceArg := replace self.

(** The body of the [for repldir, sub in self.replace.items()] loop. *)
Definition input_rule (root : string) (d : OrderedDict) (rule : string * string)
  : OrderedDict :=
  let '(repldir, sub) := rule in
  let repldir := addsep (os_path_normpath (os_path_join root repldir)) in
  let replurl :=
    path2url (Py.drop (String.length (common_path_prefix [root; repldir])) repldir) in
  od_setitem d replurl sub.

(** [input(self, _in, out, **kw)] up to the call of the base class's
    [input] (which rewrites the text, calling [replace_url] per URL):
    the part that builds the state.  [input_then_super] is the method
    to its end. *)
Definition input (self : CSSRewriteFilter) : result CSSRewriteFilter :=
  let root := addsep (directory (env self)) in
  let self :=
    if replace_not_in_False_None (replace self) then
      match replace self with
      | ReplaceMapping items =>
          set_replace_dict self (fold_left (input_rule root) items [])
      | _ => self
      end
    else self in
  if external_not_in_False_None (external self) then
    match external self with
    | ExternalName name =>
        a <- env_getitem (env self) name ;;
        ok (set_external_assets self a)
    | _ => ok self
    end
  else ok self.

(** [_is_abs_url(self, url)] *)
Definition _is_abs_url (url : string) : bool :=
  Py.startswith url "/"
  && (Py.startswith url "http://" || Py.startswith url "https://").

(** The [for to_replace, sub in self.replace_dict.items()] loop of
    replace mode; [url] is reassigned only where the loop breaks. *)
Fixpoint replace_loop (self : CSSRewriteFilter) (items : OrderedDict)
         (url : string) : result string :=
  match items with
  | [] => ok url
  | (to_replace, sub) :: rest =>
      targeturl <- urlparse_urljoin (source_url self) url ;;
      if Py.startswith targeturl to_replace
      then ok (sub ++ Py.drop (String.length to_replace) targeturl)
      else replace_loop self rest url
  end.

(** The [replacement] computed in external mode from the versioned
    path ([None] is never assigned after the initialisation). *)
Definition external_replacement (self : CSSRewriteFilter) (asset_path : string)
  : result (option string) :=
  match url (env self) with
  | Some env_url =>
      if Py.truthy env_url then
        if Py.startswith env_url "http://"
           || Py.startswith env_url "https://"
           || Py.startswith env_url "//"
        then r <- urlparse_urljoin env_url asset_path ;; ok (Some r)
        else ok (Some (urlpath_relpathto (directory (env self)) (output_path self)
                         (absurl (env self) asset_path)))
      else ok (Some (urlpath_relpathto (directory (env self)) (output_path self)
                       asset_path))
  | None =>
      ok (Some (urlpath_relpathto (directory (env self)) (output_path self)
                  asset_path))
  end.

(** External mode, the body under [if not self._is_abs_url(url)]. *)
Definition external_rewrite (self : CSSRewriteFilter) (url : string)
  : result string :=
  let file_path := urlpath_pathjoin (source_path self) url in
  a <- getattr "external_assets" (external_assets self) ;;
  asset_path <- versioned_folder a file_path ;;
  replacement <- external_replacement self asset_path ;;
  match replacement with
  | None =>
      t <- urlparse_urljoin (source_url self) url ;;
      ok (urlpath_relpath (output_url self) t)
  | Some r => ok r
  end.

(** Default mode, the body under [if not self._is_abs_url(url)]. *)
Definition default_rewrite (self : CSSRewriteFilter) (url : string)
  : result string :=
  t <- urlparse_urljoin (source_url self) url ;;
  ok (urlpath_relpath (output_url self) t).

(** [replace_url(self, url)] *)
Definition replace_url (self : CSSRewriteFilter) (url : string) : result string :=
  if replace_is_not_False (replace self) then
    (* Replace mode: manually adjust the location of files *)
    d <- getattr "replace_dict" (replace_dict self) ;;
    replace_loop self d url
  else if external_is_not_False (external self) then
    (* External mode: use an ExternalAssets object *)
    if negb (_is_abs_url url) then external_rewrite self url else ok url
  else
    (* Default mode: auto correct relative urls *)
    if negb (_is_abs_url url) then default_rewrite self url else ok url.

End Filter.

(* ===================================================================== *)
(** ** The Python 2 standard library: [urlparse] and [posixpath] *)
(* ===================================================================== *)

Module urlparse.

Definition uses_relative : list string :=
  ["ftp"; "http"; "gopher"; "nntp"; "imap"; "wais"; "file"; "https";
   "shttp"; "mms"; "prospero"; "rtsp"; "rtspu"; ""; "sftp"; "svn";
   "svn+ssh"].

Definition uses_netloc : list string :=
  ["ftp"; "http"; "gopher"; "nntp"; "telnet"; "imap"; "wais"; "file";
   "mms"; "https"; "shttp"; "snews"; "prospero"; "rtsp"; "rtspu";
   "rsync"; ""; "svn"; "svn+ssh"; "sftp"; "nfs"; "git"; "git+ssh"].

Definition uses_params : list string :=
  ["ftp"; "hdl"; "prospero"; "http"; "imap"; "https"; "shttp"; "rtsp";
   "rtspu"; "sip"; "sips"; "mms"; ""; "sftp"; "tel"].

Definition scheme_chars : string :=
  "abcdefghijklmnopqrstuvwxyzABCDEFGHIJKLMNOPQRSTUVWXYZ0123456789+-.".

(** The 5-tuple of [urlsplit] and the 6-tuple of [urlparse]. *)
Record SplitResult : Type := {
  s_scheme : string; s_netloc : string; s_path : string;
  s_query : string; s_fragment : string
}.

Record ParseResult : Type := {
  scheme : string; netloc : string; path : string;
  params : string; query : string; fragment : string
}.

(** [_splitnetloc(url, start)]: the domain part ends at the earliest
    of '/', '?' and '#' at or after [start]. *)
Definition _splitnetloc (url : string) (start : nat) : string * string :=
  let delim :=
    fold_left
      (fun delim c =>
         let wdelim := Py.find_at c start url in
         if (0 <=? wdelim)%Z then Nat.min delim (Z.to_nat wdelim) else delim)
      ["/"; "?"; "#"]%char (String.length url) in
  (Py.take (delim - start) (Py.drop start url), Py.drop delim url).

(** What [urlsplit] does once the scheme is decided: network
    location, fragment, query. *)
Definition split_rest (scheme url : string) : result SplitResult :=
  nu <- (if Py.startswith url "//" then
           let '(netloc, url) := _splitnetloc url 2 in
           if (Py.contains "[" netloc && negb (Py.contains "]" netloc))
              || (Py.contains "]" netloc && negb (Py.contains "[" netloc))
           then raise (ValueError "Invalid IPv6 URL")
           else ok (netloc, url)
         else ok ("", url)) ;;
  let '(netloc, url) := nu in
  let '(url, fragment) :=
    if Py.contains "#" url then Py.split1 "#" url else (url, "") in
  let '(url, query) :=
    if Py.contains "?" url then Py.split1 "?" url else (url, "") in
  ok {| s_scheme := scheme; s_netloc := netloc; s_path := url;
        s_query := query; s_fragment := fragment |}.

(** [urlsplit(url, scheme)] with fragments allowed (the result cache
    does not change what is returned). *)
Definition urlsplit (url scheme : string) : result SplitResult :=
  let i := Py.find ":" url in
  if (0 <? i)%Z then
    let head := Py.slice_to i url in
    if String.eqb head "http" then
      split_rest (Py.lower head) (Py.slice_from (i + 1) url)
    else if Py.all_in scheme_chars head then
      let rest := Py.slice_from (i + 1) url in
      if negb (Py.truthy rest) || negb (Py.all_in "0123456789" rest)
      then split_rest (Py.lower head) rest
      else split_rest scheme url
    else split_rest scheme url
  else split_rest scheme url.

(** [_splitparams(url)] *)
Definition _splitparams (url : string) : string * string :=
  if Py.contains "/" url then
    let i := Py.find_at ";" (Py.bound (Py.rfind "/" url) url) url in
    if (i <? 0)%Z then (url, "")
    else (Py.slice_to i url, Py.slice_from (i + 1) url)
  else
    let i := Py.find ";" url in
    (Py.slice_to i url, Py.slice_from (i + 1) url).

(** [urlparse(url, scheme)] *)
Definition urlparse (url scheme : string) : result ParseResult :=
  t <- urlsplit url scheme ;;
  let '(url, params) :=
    if Py.mem (s_scheme t) uses_params && Py.contains ";" (s_path t)
    then _splitparams (s_path t)
    else (s_path t, "") in
  ok {| scheme := s_scheme t; netloc := s_netloc t; path := url;
        params := params; query := s_query t; fragment := s_fragment t |}.

(** [urlunsplit((scheme, netloc, url, query, fragment))] *)
Definition urlunsplit (scheme netloc url query fragment : string) : string :=
  let url :=
    if Py.truthy netloc
       || (Py.truthy scheme && Py.mem scheme uses_netloc
           && negb (Py.startswith url "//"))
    then
      let url := if Py.truthy url && negb (Py.startswith url "/")
                 then "/" ++ url else url in
      "//" ++ netloc ++ url
    else url in
  let url := if Py.truthy scheme then scheme ++ ":" ++ url else url in
  let url := if Py.truthy query then url ++ "?" ++ query else url in
  if Py.truthy fragment then url ++ "#" ++ fragment else url.

(** [urlunparse((scheme, netloc, url, params, query, fragment))] *)
Definition urlunparse (scheme netloc url params query fragment : string)
  : string :=
  let url := if Py.truthy params then url ++ ";" ++ params else url in
  urlunsplit scheme netloc url query fragment.

(** [if segments[-1] == '.': segments[-1] = ''] *)
Definition blank_last_dot (segments : list string) : list string :=
  if String.eqb (last segments "") "." then removelast segments ++ [""]
  else segments.

(** [while '.' in segments: segments.remove('.')] *)
Definition remove_dots (segments : list string) : list string :=
  filter (fun w => negb (String.eqb w ".")) segments.

(** One pass of the inner [while i < n] loop: the first [i] with
    [1 <= i < len(segments) - 1], [segments[i] == '..'] and
    [segments[i-1] not in ('', '..')] has [segments[i-1:i+1]] deleted;
    [None] when the loop runs to its [else]. *)
Fixpoint del_dotdot (segments : list string) : option (list string) :=
  match segments with
  | prev :: rest =>
      match rest with
      | cur :: tl =>
          match tl with
          | _ :: _ =>
              if String.eqb cur ".." && negb (Py.mem prev [""; ".."])
              then Some tl
              else option_map (cons prev) (del_dotdot rest)
          | [] => None
          end
      | [] => None
      end
  | [] => None
  end.

(** The [while 1] loop; each pass that deletes shortens the list by
    two, so [fuel = len(segments)] passes are never used up. *)
Fixpoint collapse (fuel : nat) (segments : list string) : list string :=
  match fuel with
  | O => segments
  | S fuel' =>
      match del_dotdot segments with
      | Some segments' => collapse fuel' segments'
      | None => segments
      end
  end.

(** The two closing tests on a trailing '..'. *)
Definition close_dotdot (segments : list string) : list string :=
  if list_eq_dec string_dec segments [""; ".."] then [""; ""]
  else if (2 <=? List.length segments)%nat
          && String.eqb (last segments "") ".."
  then removelast (removelast segments) ++ [""]
  else segments.

(** [urljoin(base, url)] *)
Definition urljoin (base url : string) : result string :=
  if negb (Py.truthy base) then ok url
  else if negb (Py.truthy url) then ok base
  else
    b <- urlparse base "" ;;
    u <- urlparse url (scheme b) ;;
    if negb (String.eqb (scheme u) (scheme b))
       || negb (Py.mem (scheme u) uses_relative)
    then ok url
    else if Py.mem (scheme u) uses_netloc && Py.truthy (netloc u)
    then ok (urlunparse (scheme u) (netloc u) (path u)
               (params u) (query u) (fragment u))
    else
      let netloc :=
        if Py.mem (scheme u) uses_netloc then netloc b else netloc u in
      if Py.startswith (path u) "/"
      then ok (urlunparse (scheme u) netloc (path u)
                 (params u) (query u) (fragment u))
      else if negb (Py.truthy (path u)) && negb (Py.truthy (params u))
      then
        let query := if negb (Py.truthy (query u)) then query b else query u in
        ok (urlunparse (scheme u) netloc (path b) (params b) query (fragment u))
      else
        let segments :=
          (removelast (Py.split "/" (path b)) ++ Py.split "/" (path u))%list in
        let segments := blank_last_dot segments in
        let segments := remove_dots segments in
        let segments := collapse (List.length segments) segments in
        let segments := close_dotdot segments in
        ok (urlunparse (scheme u) netloc (Py.join "/" segments)
              (params u) (query u) (fragment u)).

End urlparse.

Module posixpath.

(** [join(a, b)] *)
Definition join (a b : string) : string :=
  if Py.startswith b "/" then b
  else if String.eqb a "" || Py.endswith a "/" then a ++ b
  else a ++ "/" ++ b.

(** The [for comp in comps] loop of [normpath]; [new_comps] is kept
    reversed. *)
Fixpoint norm_comps (initial_slashes : nat) (comps rev_new : list string)
  : list string :=
  match comps with
  | [] => rev rev_new
  | comp :: comps' =>
      if String.eqb comp "" || String.eqb comp "." then
        norm_comps initial_slashes comps' rev_new
      else if negb (String.eqb comp "..")
              || ((initial_slashes =? 0)%nat
                  && match rev_new with [] => true | _ => false end)
              || match rev_new with
                 | top :: _ => String.eqb top ".."
                 | [] => false
                 end
      then norm_comps initial_slashes comps' (comp :: rev_new)
      else norm_comps initial_slashes comps' (tl rev_new)
  end.

(** [normpath(path)] *)
Definition normpath (path : string) : string :=
  if String.eqb path "" then "."
  else
    let initial_slashes :=
      if Py.startswith path "/" then
        if Py.startswith path "//" && negb (Py.startswith path "///")
        then 2 else 1
      else 0 in
    let comps := norm_comps initial_slashes (Py.split "/" path) [] in
    let path := Py.join "/" comps in
    let path := Py.take initial_slashes "//" ++ path in
    if Py.truthy path then path else ".".

(** [dirname(p)] *)
Definition dirname (p : string) : string :=
  let head := Py.slice_to (Py.rfind "/" p + 1) p in
  if Py.truthy head && negb (Py.all_in "/" head)
  then Py.rstrip "/" head
  else head.

End posixpath.

(* ===================================================================== *)
(** ** The repository's helper modules *)
(* ===================================================================== *)

Module urlpath.

(** The number of leading positions at which two segment lists agree
    (the [for start_seg, dest_seg in zip(...)] scan). *)
Fixpoint diverge (orig_list dest_list : list string) : nat :=
  match orig_list, dest_list with
  | a :: orig', b :: dest' =>
      if String.eqb a b then S (diverge orig' dest') else O
  | _, _ => O
  end.

(** The relative path between two split absolute paths. *)
Definition climb (orig_list dest_list : list string) (dest : string) : string :=
  let i := diverge orig_list dest_list in
  let segments :=
    (repeat ".." (List.length orig_list - i) ++ skipn i dest_list)%list in
  match segments with
  | [] => if Py.endswith dest "/" then "" else last dest_list ""
  | _ => Py.join "/" segments
  end.

(** Modelled from the spec: [urlpath.relpath(origin, dest)], the
    spec's [relativeUrl(fromUrl, toUrl)], is imported by the filter but
    its module is not among the sources.  It is the minimal relative
    path, with one [..] ascent per directory of [origin] below the
    point where the two paths diverge, from the location of [origin]
    (its last component is a file name unless it ends in a slash) to
    [dest]; both paths are first anchored at the root, and two paths
    without a common ancestor give [dest] back in its absolute form. *)
Definition relpath (origin dest : string) : string :=
  let origin := if Py.startswith origin "/" then origin else "/" ++ origin in
  let dest := if Py.startswith dest "/" then dest else "/" ++ dest in
  let orig_list := removelast (Py.split "/" origin) in
  let dest_list := Py.split "/" dest in
  if negb (String.eqb (hd "" orig_list) (hd "" dest_list)) then dest
  else climb orig_list dest_list dest.

(** Modelled from the spec: [urlpath.relpathto(thisdir, origin, dest)],
    not among the sources.  [origin] and [dest] are paths relative to
    the directory [thisdir]; the result is the relative path from the
    directory of [origin] to [dest], and [dest] itself when there is
    no way from the one to the other. *)
Definition relpathto (thisdir origin dest : string) : string :=
  let thisdir := if Py.startswith thisdir "/" then thisdir else "/" ++ thisdir in
  let orig_abs := posixpath.normpath (posixpath.join thisdir origin) in
  let dest_abs := posixpath.normpath (posixpath.join thisdir dest) in
  let orig_abs :=
    if Py.endswith origin "/" && negb (Py.endswith orig_abs "/")
    then orig_abs ++ "/" else orig_abs in
  let dest_abs :=
    if Py.endswith dest "/" && negb (Py.endswith dest_abs "/")
    then dest_abs ++ "/" else dest_abs in
  let orig_list := removelast (Py.split "/" orig_abs) in
  let dest_list := Py.split "/" dest_abs in
  if negb (String.eqb (hd "" orig_list) (hd "" dest_list)) then dest
  else climb orig_list dest_list dest.

(** Modelled from the spec: [urlpath.pathjoin(base, path)], not among
    the sources: the URL joined against the directory of the source
    file, as a normalised path. *)
Definition pathjoin (base path : string) : string :=
  posixpath.normpath (posixpath.join (posixpath.dirname base) path).

End urlpath.

Module base.

(** Modelled from the spec: [base.addsep(path)], not among the
    sources, gives the path its trailing separator. *)
Definition addsep (path : string) : string :=
  if Py.truthy path && negb (Py.endswith path "/") then path ++ "/" else path.

(** Modelled from the spec: [base.path2url(path)], not among the
    sources, the spec's [toUrlPath]: the path with forward slashes,
    which on a POSIX system it already has. *)
Definition path2url (path : string) : string := path.

End base.

Module utils.

(** The longest common prefix of two segment lists. *)
Fixpoint common_segments (a b : list string) : list string :=
  match a, b with
  | x :: a', y :: b' =>
      if String.eqb x y then x :: common_segments a' b' else []
  | _, _ => []
  end.

(** Modelled from the spec: [webassets.utils.common_path_prefix(paths)],
    not among the sources, the spec's [commonPrefix]: the longest
    prefix, in whole path segments, that all the paths share. *)
Definition common_path_prefix (paths : list string) : string :=
  match map (Py.split "/") paths with
  | [] => ""
  | p :: ps => Py.join "/" (fold_left common_segments ps p)
  end.

End utils.

(** The imports as the module finds them on a POSIX system, with a base
    class constructor that succeeds. *)
#[export] Instance PyImports : Imports := {|
  urlparse_urljoin := urlparse.urljoin;
  urlpath_pathjoin := urlpath.pathjoin;
  urlpath_relpath := urlpath.relpath;
  urlpath_relpathto := urlpath.relpathto;
  addsep := base.addsep;
  path2url := base.path2url;
  os_path_normpath := posixpath.normpath;
  os_path_join := posixpath.join;
  common_path_prefix := utils.common_path_prefix;
  super_init := ok tt
|}.


(* ===================================================================== *)
(** ** Concrete instances used by the examples *)
(* ===================================================================== *)

(** A project at [/proj] with no publish URL and nothing registered. *)
Definition plain_env : Environment := {|
  directory := "/proj";
  url := None;
  absurl := fun p => p;
  env_getitem := fun name => raise (KeyError name)
|}.

(** A source in [css/], merged into [build/out.css]. *)
Definition css_to_build : Binding := {|
  b_env := plain_env;
  b_source_path := "css/a.css";
  b_source_url := "/css/a.css";
  b_output_path := "build/out.css";
  b_output_url := "/build/out.css"
|}.

(** The spec's default-mode example: source [/proj/css/sub/a.css],
    output [/proj/build/out.css]. *)
Definition proj_sub_to_build : Binding := {|
  b_env := plain_env;
  b_source_path := "css/sub/a.css";
  b_source_url := "/proj/css/sub/a.css";
  b_output_path := "build/out.css";
  b_output_url := "/proj/build/out.css"
|}.

(** An instance with [replace] and [external] as constructed, attached
    to the environment and contexts [b], and neither [replace_dict] nor
    [external_assets] set. *)
Definition fresh (b : Binding) (r : ReplaceArg) (x : ExternalArg)
  : CSSRewriteFilter :=
  {| replace := r; external := x; env := b_env b;
     replace_dict := None; external_assets := None;
     source_path := b_source_path b; source_url := b_source_url b;
     output_path := b_output_path b; output_url := b_output_url b |}.

(** A constructed instance once the framework has given it its
    environment and the base class its contexts. *)
Definition bound (c : Constructed) (b : Binding) : CSSRewriteFilter :=
  fresh b (c_replace c) (c_external c).

(** Construct, then run [input]: the state in which URLs are rewritten. *)
Definition prepared {I : Imports} (b : Binding) (r : ReplaceArg) (x : ExternalArg)
  : result CSSRewriteFilter :=
  c <- __init__ r x ;;
  input (bound c b).

(** A resolver that versions one known file and knows no other. *)
Definition one_asset : ExternalAssets := {|
  versioned_folder := fun file_path =>
    if String.eqb file_path "img/x.png" then ok "ext/img/x.1f3a.png"
    else raise (Raised "LookupError" "not under version control")
|}.

(** An environment with [one_asset] registered as [external_assets] and
    the given publish URL. *)
Definition env_with (publish : option string) : Environment := {|
  directory := "/proj";
  url := publish;
  absurl := fun p =>
    match publish with
    | Some u => u ++ p
    | None => p
    end;
  env_getitem := fun name =>
    if String.eqb name "external_assets" then ok one_asset
    else raise (KeyError name)
|}.

Definition css_to_build_with (publish : option string) : Binding := {|
  b_env := env_with publish;
  b_source_path := "css/a.css";
  b_source_url := "/css/a.css";
  b_output_path := "build/out.css";
  b_output_url := "/build/out.css"
|}.

(** The instance [input] leaves in external mode, for a publish URL. *)
Definition external_ready (publish : option string) : CSSRewriteFilter :=
  set_external_assets
    (fresh (css_to_build_with publish) ReplaceFalse (ExternalName "external_assets"))
    one_asset.

(** The instance [input] leaves when rules and a resolver name were
    both given to the constructor. *)
Definition both_configured : CSSRewriteFilter :=
  set_external_assets
    (set_replace_dict
       (fresh (css_to_build_with None) (ReplaceMapping [("old", "/new/")])
          (ExternalName "external_assets"))
       [("/old/", "/new/")])
    one_asset.

(** A path segment with nothing for [urlparse] or the dot-segment
    handling to act on: not empty, not [.] or [..], and free of the
    URL delimiters. *)
Definition plain_segment (w : string) : bool :=
  Py.truthy w
  && negb (Py.contains "/" w) && negb (Py.contains ":" w)
  && negb (Py.contains "?" w) && negb (Py.contains "#" w)
  && negb (Py.contains ";" w)
  && negb (String.eqb w ".") && negb (String.eqb w "..").

(** The segments [l] as a path, from the root when [rooted]. *)
Definition anchored (rooted : bool) (l : list string) : string :=
  (if rooted then "/" else "") ++ Py.join "/" l.

(** The URL of the file [name] in the directory reached through [dirs],
    from the root when [rooted]. *)
Definition url_in (rooted : bool) (dirs : list string) (name : string) : string :=
  anchored rooted (dirs ++ [name])%list.

(** A source and an output that share the directory [/css/]. *)
Definition same_directory : Binding := {|
  b_env := plain_env;
  b_source_path := "css/a.css";
  b_source_url := "/css/a.css";
  b_output_path := "css/out.css";
  b_output_url := "/css/out.css"
|}.

(** The URL prefix that [input] derives from a configured directory
    ([replurl] in the loop body). *)
Definition replurl {I : Imports} (root repldir : string) : string :=
  let repldir := addsep (os_path_normpath (os_path_join root repldir)) in
  path2url (Py.drop (String.length (common_path_prefix [root; repldir])) repldir).

(** [external_ready] for a source and an output elsewhere: only
    [source_url] and [output_url] differ. *)
Definition external_ready_elsewhere (publish : option string) : CSSRewriteFilter :=
  {| replace := ReplaceFalse; external := ExternalName "external_assets";
     env := env_with publish;
     replace_dict := None; external_assets := Some one_asset;
     source_path := "css/a.css"; source_url := "/deep/down/css/a.css";
     output_path := "build/out.css"; output_url := "/elsewhere/out.css" |}.


(** The path of a relative URL in resolved form, seen from a file in
    the directory [dirs]: [j] leading [..] segments, then the segments
    [named], of which there is at least one, the first is not empty,
    none is [.] or [..], and, when the ascents do not go above the
    root, the first is not the name of the directory the last ascent
    left. *)
Definition resolved_segments (dirs : list string) (j : nat)
           (named : list string) : bool :=
  match named with
  | [] => false
  | first :: _ =>
      Py.truthy first
      && forallb (fun w => negb (Py.contains "/" w)
                           && negb (String.eqb w ".")
                           && negb (String.eqb w "..")) named
      && (if (0 <? j)%nat && (j <=? List.length dirs)%nat
          then negb (String.eqb first (nth (List.length dirs - j) dirs ""))
          else true)
  end.

(* ===================================================================== *)
(** ** Strings: prefixes and slices *)
(* ===================================================================== *)

Lemma startswith_app (p rest : string) : Py.startswith (p ++ rest) p = true.
Proof.
  induction p as [|a p IH]; simpl; [reflexivity|].
  now rewrite Ascii.eqb_refl, IH.
Qed.

Lemma drop_app (p rest : string) : Py.drop (String.length p) (p ++ rest) = rest.
Proof. induction p as [|a p IH]; simpl; auto. Qed.

Lemma startswith_slash_not_http (url : string) :
  Py.startswith url "/" = true ->
  Py.startswith url "http://" = false /\ Py.startswith url "https://" = false.
Proof.
  destruct url as [|a s]; cbn [Py.startswith]; [discriminate|].
  destruct (Ascii.eqb_spec "/" a) as [<-|]; [|discriminate].
  intros _. split; reflexivity.
Qed.

(* ===================================================================== *)
(** ** The result monad *)
(* ===================================================================== *)

Lemma bind_ok {A B : Type} (a : A) (k : A -> result B) : bind (ok a) k = k a.
Proof. reflexivity. Qed.

Lemma bind_raise {A B : Type} (e : exn) (k : A -> result B) :
  bind (raise e) k = raise e.
Proof. reflexivity. Qed.

Lemma bind_ret_r {A : Type} (m : result A) : bind m (fun r => ok r) = m.
Proof. destruct m; reflexivity. Qed.

(* ===================================================================== *)
(** ** Properties that hold for any implementation of the imports *)
(* ===================================================================== *)

Section FilterProperties.
Context {I : Imports}.

Lemma is_abs_url_false (url : string) : _is_abs_url url = false.
Proof.
  unfold _is_abs_url.
  destruct (Py.startswith url "/") eqn:Hs; [|reflexivity].
  destruct (startswith_slash_not_http url Hs) as [-> ->]. reflexivity.
Qed.

(** What [__init__] returns, when the base constructor returns. *)
Lemma init_ok (r : ReplaceArg) (x : ExternalArg) (c : Constructed) :
  __init__ r x = ok c -> c = {| c_replace := r; c_external := x |}.
Proof.
  unfold __init__, bind. destruct super_init as [e|[]]; [discriminate|].
  intros H. injection H as <-. reflexivity.
Qed.

(** [input] leaves the constructor arguments and the contexts alone. *)
Lemma input_keeps (self self' : CSSRewriteFilter) :
  input self = ok self' ->
  replace self' = replace self /\ external self' = external self
  /\ env self' = env self /\ source_url self' = source_url self
  /\ output_url self' = output_url self.
Proof.
  unfold input.
  destruct (replace self) eqn:Hr, (external self) eqn:Hx; simpl;
    try rewrite Hx; simpl; unfold bind;
    try (intros H; injection H as <-; simpl; auto; fail);
    destruct (env_getitem _ _); try discriminate;
    intros H; injection H as <-; simpl; auto.
Qed.

(** What [input] leaves in [replace_dict]. *)
Lemma input_replace_dict (self self' : CSSRewriteFilter) :
  input self = ok self' ->
  replace_dict self' =
    match replace self with
    | ReplaceMapping items =>
        Some (fold_left (input_rule (addsep (directory (env self)))) items [])
    | _ => replace_dict self
    end.
Proof.
  unfold input.
  destruct (replace self) eqn:Hr, (external self) eqn:Hx; simpl;
    try rewrite Hx; simpl; unfold bind;
    try (intros H; injection H as <-; simpl; auto; fail);
    destruct (env_getitem _ _); try discriminate;
    intros H; injection H as <-; simpl; auto.
Qed.

(** No rule matching: the loop runs to its end and [url] is never
    reassigned. *)
Lemma replace_loop_no_match (self : CSSRewriteFilter) (d : OrderedDict)
      (url t : string) :
  urlparse_urljoin (source_url self) url = ok t ->
  Forall (fun rule => Py.startswith t (fst rule) = false) d ->
  replace_loop self d url = ok url.
Proof.
  intros Ht Hd. induction Hd as [|[p sub] d Hp Hd IH]; simpl; [reflexivity|].
  rewrite Ht, bind_ok. simpl in Hp. rewrite Hp. exact IH.
Qed.

(** The loop breaks at the first rule whose prefix matches. *)
Lemma replace_loop_first_match (self : CSSRewriteFilter)
      (pre post : OrderedDict) (p sub url t : string) :
  urlparse_urljoin (source_url self) url = ok t ->
  Forall (fun rule => Py.startswith t (fst rule) = false) pre ->
  Py.startswith t p = true ->
  replace_loop self (pre ++ (p, sub) :: post)%list url
  = ok (sub ++ Py.drop (String.length p) t).
Proof.
  intros Ht Hpre Hp. induction Hpre as [|[q s] pre Hq Hpre IH]; simpl.
  - now rewrite Ht, bind_ok, Hp.
  - rewrite Ht, bind_ok. simpl in Hq. rewrite Hq. exact IH.
Qed.

(** External mode never leaves [replacement] at [None]. *)
Lemma external_replacement_some (self : CSSRewriteFilter) (asset_path : string)
      (o : option string) :
  external_replacement self asset_path = ok o -> exists r, o = Some r.
Proof.
  unfold external_replacement.
  destruct (url (env self)) as [u|]; [destruct (Py.truthy u)|];
    [destruct (_ || _)%bool|..]; unfold bind;
    try destruct (urlparse_urljoin _ _); try discriminate;
    intros H; injection H as <-; eauto.
Qed.

End FilterProperties.

(* ===================================================================== *)
(** ** The absolute-URL test and the three modes *)
(* ===================================================================== *)

(** C9: [_is_abs_url] returns [False] for every string, since a string
    that starts with '/' starts with neither 'http://' nor 'https://';
    so in default mode and in external mode every URL, the
    scheme-qualified ones too, takes the rewriting branch. *)
Theorem C9_is_abs_url_never_holds :
  (forall u : string, _is_abs_url u = false)
  /\ (forall (I : Imports) (self : CSSRewriteFilter) (u : string),
         replace self = ReplaceFalse -> external self = ExternalFalse ->
         replace_url self u = default_rewrite self u)
  /\ (forall (I : Imports) (self : CSSRewriteFilter) (u : string),
         replace self = ReplaceFalse -> external self <> ExternalFalse ->
         replace_url self u = external_rewrite self u).
Proof.
  split; [exact is_abs_url_false|]. split.
  - intros I self u Hr Hx. unfold replace_url.
    now rewrite Hr, Hx, is_abs_url_false.
  - intros I self u Hr Hx. unfold replace_url.
    rewrite Hr, is_abs_url_false. simpl.
    destruct (external self); [contradiction| |]; reflexivity.
Qed.

Lemma C9_witness :
  _is_abs_url "https://example.com/a.png" = false
  /\ replace_url (fresh css_to_build ReplaceFalse ExternalFalse)
       "https://example.com/a.png"
     = default_rewrite (fresh css_to_build ReplaceFalse ExternalFalse)
         "https://example.com/a.png"
  /\ replace_url (fresh css_to_build ReplaceFalse ExternalNone)
       "https://example.com/a.png"
     = external_rewrite (fresh css_to_build ReplaceFalse ExternalNone)
         "https://example.com/a.png".
Proof.
  destruct C9_is_abs_url_never_holds as [H1 [H2 H3]].
  split; [apply H1|]. split.
  - apply H2; reflexivity.
  - apply H3; [reflexivity | discriminate].
Defined.

(** C1 (the code at a scheme-qualified URL): in default mode the URL
    [http://example.com/a.png] is not kept; it is resolved and made
    relative like any other, and in external mode it is joined to the
    source path and handed to the resolver. *)
Theorem C1_scheme_qualified_url_is_rewritten :
  replace_url (fresh css_to_build ReplaceFalse ExternalFalse)
    "http://example.com/a.png"
  = ok "../http://example.com/a.png"
  /\ (self <- prepared (css_to_build_with None) ReplaceFalse
                (ExternalName "external_assets") ;;
      replace_url self "http://example.com/a.png")
     = raise (Raised "LookupError" "not under version control").
Proof. split; reflexivity. Qed.

(* ===================================================================== *)
(** ** Construction *)
(* ===================================================================== *)

(** C2 (as the code has it): the constructor stores [replace] and
    [external] without looking at them.  Given both a rule mapping and
    a resolver name it returns an instance that holds the two as given
    whenever the base constructor, which is called without arguments,
    returns, and it raises only what the base constructor raises; on
    that instance [input] builds the rules (the environment knowing the
    resolver name), and every URL is then rewritten in replace mode, by
    the rules alone. *)
Theorem C2_constructor_accepts_both
        {I : Imports} (items : list (string * string)) (name : string) :
  (super_init = ok tt ->
   __init__ (ReplaceMapping items) (ExternalName name)
   = ok {| c_replace := ReplaceMapping items; c_external := ExternalName name |})
  /\ (forall e : exn,
         __init__ (ReplaceMapping items) (ExternalName name) = raise e
         <-> super_init = raise e)
  /\ (forall (b : Binding) (a : ExternalAssets),
         env_getitem (b_env b) name = ok a ->
         exists (self : CSSRewriteFilter) (d : OrderedDict),
           input (bound {| c_replace := ReplaceMapping items;
                           c_external := ExternalName name |} b) = ok self
           /\ replace_dict self = Some d
           /\ forall u : string, replace_url self u = replace_loop self d u).
Proof.
  split; [|split].
  - intros H. unfold __init__. rewrite H. reflexivity.
  - intros e. unfold __init__, bind.
    destruct super_init as [e'|[]]; split; intros H;
      try discriminate H; injection H as <-; reflexivity.
  - intros b a Hg.
    assert (Hin : exists self,
               input (bound {| c_replace := ReplaceMapping items;
                               c_external := ExternalName name |} b) = ok self).
    { unfold input.
      cbn [bound fresh c_replace c_external replace external env
           replace_not_in_False_None external_not_in_False_None
           set_replace_dict].
      rewrite Hg. cbn [bind]. eexists. reflexivity. }
    destruct Hin as [self H1]. exists self.
    pose proof (input_replace_dict _ _ H1) as Hd.
    destruct (input_keeps _ _ H1) as [Hr _]. simpl in Hd, Hr.
    eexists. split; [exact H1|]. split; [exact Hd|].
    intros u. unfold replace_url. rewrite Hr, Hd. reflexivity.
Qed.

Lemma C2_witness :
  __init__ (ReplaceMapping [("old", "/new/")]) (ExternalName "external_assets")
  = ok {| c_replace := ReplaceMapping [("old", "/new/")];
          c_external := ExternalName "external_assets" |}
  /\ exists (self : CSSRewriteFilter) (d : OrderedDict),
      input (bound {| c_replace := ReplaceMapping [("old", "/new/")];
                      c_external := ExternalName "external_assets" |}
               (css_to_build_with None)) = ok self
      /\ replace_dict self = Some d
      /\ forall u : string, replace_url self u = replace_loop self d u.
Proof.
  split.
  - exact (proj1 (C2_constructor_accepts_both (I:=PyImports)
                    [("old", "/new/")] "external_assets") eq_refl).
  - exact (proj2 (proj2 (C2_constructor_accepts_both (I:=PyImports)
                           [("old", "/new/")] "external_assets"))
                 (css_to_build_with None) one_asset eq_refl).
Defined.

(** C2 fails as stated: with rules and a resolver name together the
    constructor returns an instance; it raises nothing. *)
Lemma C2_counterexample :
  __init__ (ReplaceMapping [("old", "/new/")]) (ExternalName "external_assets")
  = ok {| c_replace := ReplaceMapping [("old", "/new/")];
          c_external := ExternalName "external_assets" |}
  /\ ~ (exists e : exn,
           __init__ (ReplaceMapping [("old", "/new/")])
             (ExternalName "external_assets") = raise e).
Proof. split; [reflexivity|]. intros [e H]. discriminate H. Qed.

(** C10: built with [replace=None], the instance reaches [replace_url]
    without a [replace_dict] ([input] skips [None], [replace_url] only
    skips [False]), and every URL then raises [AttributeError]; with
    [False] or a mapping the attribute is there whenever replace mode
    reads it.  The collaborators are taken to succeed: the base
    constructor, and the environment lookup of the resolver name. *)
Theorem C10_replace_None_has_no_replace_dict
        {I : Imports} (b : Binding) (r : ReplaceArg) (x : ExternalArg) :
  super_init = ok tt ->
  (forall name : string,
      x = ExternalName name -> exists a, env_getitem (b_env b) name = ok a) ->
  exists self : CSSRewriteFilter,
    prepared b r x = ok self
    /\ (r = ReplaceNone ->
        replace_dict self = None
        /\ forall u : string,
            replace_url self u = raise (AttributeError "replace_dict"))
    /\ (r <> ReplaceNone -> replace_is_not_False r = true ->
        exists d : OrderedDict,
          replace_dict self = Some d
          /\ forall u : string, replace_url self u = replace_loop self d u)
    /\ (r = ReplaceFalse ->
        forall u : string,
          replace_url self u
          = if external_is_not_False x then external_rewrite self u
            else default_rewrite self u).
Proof.
  intros Hinit Hget. unfold prepared, __init__. rewrite Hinit, !bind_ok.
  cbn [bound c_replace c_external].
  assert (Hin : exists self, input (fresh b r x) = ok self).
  { unfold input. destruct r, x; simpl; eauto;
      destruct (Hget _ eq_refl) as [a ->]; simpl; eauto. }
  destruct Hin as [self Hself]. exists self. split; [exact Hself|].
  pose proof (input_replace_dict _ _ Hself) as Hd.
  destruct (input_keeps _ _ Hself) as [Hr [Hx _]]. simpl in Hd, Hr, Hx.
  split; [|split].
  - intros ->. split; [exact Hd|].
    intros u. unfold replace_url. rewrite Hr, Hd. reflexivity.
  - intros Hn Ht. destruct r; [discriminate | contradiction |].
    eexists. split; [exact Hd|]. intros u. unfold replace_url.
    rewrite Hr, Hd. reflexivity.
  - intros -> u. unfold replace_url. rewrite Hr, Hx, is_abs_url_false.
    simpl. destruct (external_is_not_False x); reflexivity.
Qed.

Lemma C10_witness :
  exists self : CSSRewriteFilter,
    prepared css_to_build ReplaceNone ExternalFalse = ok self
    /\ replace_url self "img/x.png" = raise (AttributeError "replace_dict").
Proof.
  destruct (C10_replace_None_has_no_replace_dict (I:=PyImports) css_to_build
              ReplaceNone ExternalFalse eq_refl)
    as [self [Hp [Hnone _]]].
  - intros name H. discriminate H.
  - exists self. split; [exact Hp|]. apply (proj2 (Hnone eq_refl)).
Defined.

(* ===================================================================== *)
(** ** Replace mode *)
(* ===================================================================== *)

(** The URL prefix [input] derives from a configured directory. *)
Lemma input_rule_key {I : Imports} (root : string) (d : OrderedDict)
      (repldir sub : string) :
  input_rule root d (repldir, sub)
  = od_setitem d
      (path2url
         (Py.drop
            (String.length
               (common_path_prefix
                  [root; addsep (os_path_normpath (os_path_join root repldir))]))
            (addsep (os_path_normpath (os_path_join root repldir)))))
      sub.
Proof. reflexivity. Qed.

(** Assigning to a key that is not yet in the dictionary appends it. *)
Lemma od_setitem_new (d : OrderedDict) (k v : string) :
  ~ In k (map fst d) -> od_setitem d k v = (d ++ [(k, v)])%list.
Proof.
  induction d as [|[k0 v0] d IH]; cbn [od_setitem map fst In app];
    [reflexivity|].
  intros H. destruct (String.eqb_spec k0 k) as [E|_].
  - elim H. now left.
  - f_equal. apply IH. intros Hin. apply H. now right.
Qed.

(** Assigning to a key that is present keeps the key where it is. *)
Lemma od_setitem_keys (d : OrderedDict) (k v : string) :
  In k (map fst d) -> map fst (od_setitem d k v) = map fst d.
Proof.
  induction d as [|[k0 v0] d IH]; cbn [od_setitem map fst In]; [tauto|].
  intros H. destruct (String.eqb_spec k0 k) as [E|N].
  - cbn [map fst]. now rewrite E.
  - cbn [map fst]. f_equal. apply IH. destruct H as [H|H]; [contradiction | exact H].
Qed.

(** Rules whose directories give different prefixes enter
    [replace_dict] in the order in which [self.replace] yields them. *)
Lemma input_keeps_registration_order
      {I : Imports} (root : string) (items : list (string * string))
      (key : string -> string) :
  (forall d repldir sub,
      input_rule root d (repldir, sub) = od_setitem d (key repldir) sub) ->
  NoDup (map (fun rule => key (fst rule)) items) ->
  fold_left (input_rule root) items []
  = map (fun rule => (key (fst rule), snd rule)) items.
Proof.
  intros Hkey.
  assert (G : forall acc,
             NoDup (map fst acc ++ map (fun rule => key (fst rule)) items) ->
             fold_left (input_rule root) items acc
             = (acc ++ map (fun rule => (key (fst rule), snd rule)) items)%list).
  { induction items as [|[repldir sub] items IH]; intros acc Hnd;
      cbn [fold_left map fst snd].
    - now rewrite app_nil_r.
    - cbn [map fst] in Hnd. rewrite Hkey.
      pose proof (NoDup_remove_2 _ _ _ Hnd) as Hfresh.
      rewrite od_setitem_new
        by (intros Hin; apply Hfresh; apply in_or_app; now left).
      rewrite IH.
      + now rewrite <- app_assoc.
      + rewrite map_app, <- app_assoc. exact Hnd. }
  intros Hnd. exact (G [] Hnd).
Qed.

(** C4: the rules are tried in the order of [replace_dict], and the loop
    breaks at the first one whose prefix the resolved URL starts with:
    the result is that rule's substitution followed by what comes after
    the prefix, whatever rules come later. *)
Theorem C4_first_matching_rule_wins
        {I : Imports} (self : CSSRewriteFilter) (pre post : OrderedDict)
        (p sub u rest : string) :
  replace_is_not_False (replace self) = true ->
  replace_dict self = Some (pre ++ (p, sub) :: post)%list ->
  urlparse_urljoin (source_url self) u = ok (p ++ rest) ->
  Forall (fun rule => Py.startswith (p ++ rest) (fst rule) = false) pre ->
  replace_url self u = ok (sub ++ rest).
Proof.
  intros Hr Hd Ht Hpre. unfold replace_url. rewrite Hr, Hd. simpl.
  rewrite (replace_loop_first_match self pre post p sub u (p ++ rest) Ht Hpre
             (startswith_app p rest)).
  now rewrite drop_app.
Qed.

Lemma C4_witness :
  replace_url (set_replace_dict
                 (fresh css_to_build (ReplaceMapping [("a/b", "/x"); ("a", "/y")])
                    ExternalFalse)
                 [("/a/b/", "/x"); ("/a/", "/y")])
    "../a/b/c.png"
  = ok "/xc.png".
Proof.
  apply (C4_first_matching_rule_wins
           (set_replace_dict
              (fresh css_to_build (ReplaceMapping [("a/b", "/x"); ("a", "/y")])
                 ExternalFalse)
              [("/a/b/", "/x"); ("/a/", "/y")])
           [] [("/a/", "/y")] "/a/b/" "/x" "../a/b/c.png" "c.png").
  - reflexivity.
  - reflexivity.
  - reflexivity.
  - constructor.
Defined.

(** C3 (as the code has it): when no rule prefix matches the resolved
    URL, [replace_url] returns the URL it was given; the resolved form
    is only what the prefixes are tested against. *)
Theorem C3_unmatched_url_is_returned_as_given
        {I : Imports} (self : CSSRewriteFilter) (d : OrderedDict)
        (u t : string) :
  replace_is_not_False (replace self) = true ->
  replace_dict self = Some d ->
  urlparse_urljoin (source_url self) u = ok t ->
  Forall (fun rule => Py.startswith t (fst rule) = false) d ->
  replace_url self u = ok u.
Proof.
  intros Hr Hd Ht Hno. unfold replace_url. rewrite Hr, Hd. simpl.
  exact (replace_loop_no_match self d u t Ht Hno).
Qed.

Lemma C3_witness :
  replace_url (set_replace_dict
                 (fresh css_to_build (ReplaceMapping [("old", "/new/")])
                    ExternalFalse)
                 [("/old/", "/new/")])
    "img/x.png"
  = ok "img/x.png".
Proof.
  apply (C3_unmatched_url_is_returned_as_given
           (set_replace_dict
              (fresh css_to_build (ReplaceMapping [("old", "/new/")])
                 ExternalFalse)
              [("/old/", "/new/")])
           [("/old/", "/new/")] "img/x.png" "/css/img/x.png").
  - reflexivity.
  - reflexivity.
  - reflexivity.
  - repeat constructor.
Defined.

(** C3 fails as stated: [img/x.png] in [/css/a.css] resolves to
    [/css/img/x.png], which no rule matches, and what is returned is
    [img/x.png], not the resolved form. *)
Lemma C3_counterexample :
  let self :=
    set_replace_dict
      (fresh css_to_build (ReplaceMapping [("old", "/new/")]) ExternalFalse)
      [("/old/", "/new/")] in
  prepared css_to_build (ReplaceMapping [("old", "/new/")]) ExternalFalse
  = ok self
  /\ urlparse_urljoin (source_url self) "img/x.png" = ok "/css/img/x.png"
  /\ Py.startswith "/css/img/x.png" "/old/" = false
  /\ replace_url self "img/x.png" = ok "img/x.png"
  /\ replace_url self "img/x.png" <> ok "/css/img/x.png".
Proof. repeat split; try reflexivity. discriminate. Qed.

(* ===================================================================== *)
(** ** External mode *)
(* ===================================================================== *)

(** Where the three branches on [env.url] lead, once the resolver has
    returned a versioned path. *)
Lemma external_rewrite_resolved
      {I : Imports} (self : CSSRewriteFilter) (u : string)
      (a : ExternalAssets) (asset_path : string) :
  external_assets self = Some a ->
  versioned_folder a (urlpath_pathjoin (source_path self) u) = ok asset_path ->
  external_rewrite self u
  = (replacement <- external_replacement self asset_path ;;
     match replacement with
     | None => default_rewrite self u
     | Some r => ok r
     end).
Proof.
  intros Ha Hv. unfold external_rewrite. rewrite Ha. simpl. rewrite Hv.
  reflexivity.
Qed.

(** C7: in external mode, once the resolver has returned the versioned
    path: with a publish URL that starts with 'http://', 'https://' or
    '//' the result is the versioned path joined onto that URL; with a
    publish URL that is a bare path it is the relative path from the
    output file to [env.absurl] of the versioned path; with no publish
    URL it is the relative path from the output file to the versioned
    path.  This holds for every URL, none being classified absolute. *)
Theorem C7_external_mode_branches
        {I : Imports} (self : CSSRewriteFilter) (u : string)
        (a : ExternalAssets) (asset_path : string) :
  replace self = ReplaceFalse ->
  external_is_not_False (external self) = true ->
  external_assets self = Some a ->
  versioned_folder a (urlpath_pathjoin (source_path self) u) = ok asset_path ->
  (forall publish : string,
      url (env self) = Some publish ->
      Py.startswith publish "http://" || Py.startswith publish "https://"
      || Py.startswith publish "//" = true ->
      replace_url self u = urlparse_urljoin publish asset_path)
  /\ (forall publish : string,
         url (env self) = Some publish ->
         Py.truthy publish = true ->
         Py.startswith publish "http://" || Py.startswith publish "https://"
         || Py.startswith publish "//" = false ->
         replace_url self u
         = ok (urlpath_relpathto (directory (env self)) (output_path self)
                 (absurl (env self) asset_path)))
  /\ (Py.truthy_opt (url (env self)) = false ->
      replace_url self u
      = ok (urlpath_relpathto (directory (env self)) (output_path self)
              asset_path)).
Proof.
  intros Hr Hx Ha Hv.
  assert (Hu : replace_url self u
               = (replacement <- external_replacement self asset_path ;;
                  match replacement with
                  | None => default_rewrite self u
                  | Some r => ok r
                  end)).
  { unfold replace_url. rewrite Hr, Hx, is_abs_url_false. simpl.
    now apply external_rewrite_resolved with (a := a). }
  rewrite Hu. unfold external_replacement. split; [|split].
  - intros publish Hp Hs. rewrite Hp, Hs.
    assert (Ht : Py.truthy publish = true).
    { destruct publish; [discriminate Hs | reflexivity]. }
    rewrite Ht. destruct (urlparse_urljoin publish asset_path); reflexivity.
  - intros publish Hp Ht Hs. now rewrite Hp, Ht, Hs.
  - intros Hn. destruct (url (env self)) as [publish|]; [|reflexivity].
    simpl in Hn. now rewrite Hn.
Qed.

Lemma C7_witness :
  replace_url (external_ready (Some "http://cdn.example.com/")) "../img/x.png"
  = ok "http://cdn.example.com/ext/img/x.1f3a.png"
  /\ replace_url (external_ready (Some "/static/")) "../img/x.png"
     = ok "../../static/ext/img/x.1f3a.png"
  /\ replace_url (external_ready None) "../img/x.png"
     = ok "../ext/img/x.1f3a.png".
Proof.
  split; [|split].
  - rewrite (proj1 (C7_external_mode_branches (I:=PyImports)
                      (external_ready (Some "http://cdn.example.com/"))
                      "../img/x.png" one_asset "ext/img/x.1f3a.png"
                      eq_refl eq_refl eq_refl eq_refl)
                   "http://cdn.example.com/" eq_refl eq_refl).
    reflexivity.
  - rewrite (proj1 (proj2 (C7_external_mode_branches (I:=PyImports)
                             (external_ready (Some "/static/"))
                             "../img/x.png" one_asset "ext/img/x.1f3a.png"
                             eq_refl eq_refl eq_refl eq_refl))
                   "/static/" eq_refl eq_refl eq_refl).
    reflexivity.
  - rewrite (proj2 (proj2 (C7_external_mode_branches (I:=PyImports)
                             (external_ready None)
                             "../img/x.png" one_asset "ext/img/x.1f3a.png"
                             eq_refl eq_refl eq_refl eq_refl))
                   eq_refl).
    reflexivity.
Defined.

(** C8 (as the code has it): in external mode, what the resolver raises
    for the joined path is what [replace_url] raises, the same exception
    object; nothing is caught and nothing is added to it. *)
Theorem C8_resolver_failure_propagates
        {I : Imports} (self : CSSRewriteFilter) (u : string)
        (a : ExternalAssets) (e : exn) :
  replace self = ReplaceFalse ->
  external_is_not_False (external self) = true ->
  external_assets self = Some a ->
  versioned_folder a (urlpath_pathjoin (source_path self) u) = raise e ->
  replace_url self u = raise e.
Proof.
  intros Hr Hx Ha Hv. unfold replace_url.
  rewrite Hr, Hx, is_abs_url_false. simpl.
  unfold external_rewrite. rewrite Ha. simpl. rewrite Hv. reflexivity.
Qed.

Lemma C8_witness :
  replace_url (external_ready None) "../img/y.png"
  = raise (Raised "LookupError" "not under version control").
Proof.
  apply (C8_resolver_failure_propagates (I:=PyImports) (external_ready None)
           "../img/y.png" one_asset
           (Raised "LookupError" "not under version control")).
  - reflexivity.
  - reflexivity.
  - reflexivity.
  - reflexivity.
Defined.

(** C8 fails as stated: two different URLs of one source file that the
    resolver does not know raise one and the same exception, so neither
    the source file nor the URL can be read off what the caller gets. *)
Lemma C8_counterexample :
  let self := external_ready None in
  prepared (css_to_build_with None) ReplaceFalse (ExternalName "external_assets")
  = ok self
  /\ replace_url self "../img/y.png" = replace_url self "../img/z.png"
  /\ ~ (exists diagnostics : exn -> string * string,
           forall (u : string) (e : exn),
             replace_url self u = raise e ->
             diagnostics e = (source_path self, u)).
Proof.
  split; [reflexivity|]. split; [reflexivity|].
  intros [diagnostics H].
  pose proof (H "../img/y.png" _ eq_refl) as Hy.
  pose proof (H "../img/z.png" _ eq_refl) as Hz.
  rewrite Hy in Hz. discriminate Hz.
Qed.

(* ===================================================================== *)
(** ** Strings: characters, [split] and [join] *)
(* ===================================================================== *)

Lemma contains_app (c : ascii) (s t : string) :
  Py.contains c (s ++ t) = Py.contains c s || Py.contains c t.
Proof.
  induction s as [|a s IH]; cbn [Py.contains append]; [reflexivity|].
  now rewrite IH, orb_assoc.
Qed.

Lemma join_cons (sep w v : string) (l : list string) :
  Py.join sep (w :: v :: l) = w ++ sep ++ Py.join sep (v :: l).
Proof. reflexivity. Qed.

Lemma contains_join (c : ascii) (l : list string) :
  c <> "/"%char ->
  forallb (fun w => negb (Py.contains c w)) l = true ->
  Py.contains c (Py.join "/" l) = false.
Proof.
  intros Hc. induction l as [|w l IH]; intros Hl; [reflexivity|].
  cbn [forallb] in Hl. apply andb_true_iff in Hl. destruct Hl as [Hw Hl].
  apply negb_true_iff in Hw.
  destruct l as [|w2 l]; [exact Hw|].
  rewrite join_cons, !contains_app, Hw, (IH Hl). cbn [Py.contains].
  destruct (Ascii.eqb_spec "/" c) as [E|_]; [now elim Hc | reflexivity].
Qed.

Lemma split_nonempty (c : ascii) (s : string) : Py.split c s <> [].
Proof.
  destruct s as [|a s]; cbn [Py.split]; [discriminate|].
  destruct (Ascii.eqb a c); [discriminate|].
  destruct (Py.split c s); discriminate.
Qed.

(** A string without the separator is its own single piece. *)
Lemma split_without (c : ascii) (w : string) :
  Py.contains c w = false -> Py.split c w = [w].
Proof.
  induction w as [|a w IH]; cbn [Py.contains Py.split]; [reflexivity|].
  intros H. apply orb_false_iff in H. destruct H as [Ha Hw].
  now rewrite Ha, (IH Hw).
Qed.

(** Splitting cuts at the first separator. *)
Lemma split_cut (c : ascii) (w t : string) :
  Py.contains c w = false ->
  Py.split c (w ++ String c t) = w :: Py.split c t.
Proof.
  induction w as [|a w IH]; cbn [Py.contains Py.split append].
  - intros _. now rewrite Ascii.eqb_refl.
  - intros H. apply orb_false_iff in H. destruct H as [Ha Hw].
    now rewrite Ha, (IH Hw).
Qed.

(** [split] undoes [join] on pieces that are free of the separator. *)
Lemma split_join (l : list string) :
  l <> [] ->
  forallb (fun w => negb (Py.contains "/" w)) l = true ->
  Py.split "/" (Py.join "/" l) = l.
Proof.
  induction l as [|w l IH]; [congruence|]. intros _ Hl.
  cbn [forallb] in Hl. apply andb_true_iff in Hl. destruct Hl as [Hw Hl].
  apply negb_true_iff in Hw.
  destruct l as [|w2 l].
  - now apply split_without.
  - rewrite join_cons.
    change (w ++ "/" ++ Py.join "/" (w2 :: l))
      with (w ++ String "/" (Py.join "/" (w2 :: l))).
    rewrite (split_cut _ _ _ Hw). f_equal. apply IH; [discriminate | exact Hl].
Qed.

Lemma join_rooted (l : list string) :
  l <> [] -> Py.join "/" ("" :: l) = "/" ++ Py.join "/" l.
Proof. destruct l; [congruence | reflexivity]. Qed.

Lemma find_from_without (c : ascii) (n : nat) (s : string) :
  Py.contains c s = false -> Py.find_from c n s = (-1)%Z.
Proof.
  revert n. induction s as [|a s IH]; intros n; cbn [Py.contains Py.find_from];
    [reflexivity|].
  intros H. apply orb_false_iff in H. destruct H as [Ha Hs].
  rewrite Ha. now apply IH.
Qed.

(** What [plain_segment] says, piece by piece. *)
Lemma plain_segment_inv (w : string) :
  plain_segment w = true ->
  Py.truthy w = true
  /\ Py.contains "/" w = false /\ Py.contains ":" w = false
  /\ Py.contains "?" w = false /\ Py.contains "#" w = false
  /\ Py.contains ";" w = false
  /\ w <> "." /\ w <> "..".
Proof.
  unfold plain_segment. intros H.
  repeat (apply andb_true_iff in H; destruct H as [H ?]).
  repeat match goal with
         | X : negb _ = true |- _ => apply negb_true_iff in X
         end.
  repeat split; try assumption.
  - now apply String.eqb_neq.
  - now apply String.eqb_neq.
Qed.

Lemma plain_segments_without (c : ascii) (l : list string) :
  In c ["/"; ":"; "?"; "#"; ";"]%char ->
  forallb plain_segment l = true ->
  forallb (fun w => negb (Py.contains c w)) l = true.
Proof.
  intros Hc Hl. rewrite forallb_forall in *. intros w Hw.
  destruct (plain_segment_inv w (Hl w Hw)) as (_ & H1 & H2 & H3 & H4 & H5 & _).
  cbn [In] in Hc.
  destruct Hc as [<-|[<-|[<-|[<-|[<-|[]]]]]]; apply negb_true_iff; assumption.
Qed.

Lemma plain_not_rooted (w : string) (l : list string) :
  plain_segment w = true -> Py.startswith (Py.join "/" (w :: l)) "/" = false.
Proof.
  intros Hw. destruct (plain_segment_inv w Hw) as (Ht & Hs & _).
  destruct w as [|a w]; [discriminate Ht|].
  cbn [Py.contains] in Hs. apply orb_false_iff in Hs. destruct Hs as [Ha _].
  destruct l; [|rewrite join_cons]; cbn [Py.join append Py.startswith];
    rewrite Ascii.eqb_sym, Ha; reflexivity.
Qed.

(* ===================================================================== *)
(** ** [urlparse] on URLs that are plain paths *)
(* ===================================================================== *)

(** A URL without ':', '?', '#' and a leading '//' has no scheme,
    network location, query or fragment: it is all path. *)
Lemma urlsplit_path_only (s sch : string) :
  Py.contains ":" s = false -> Py.contains "?" s = false ->
  Py.contains "#" s = false -> Py.startswith s "//" = false ->
  urlparse.urlsplit s sch
  = ok {| urlparse.s_scheme := sch; urlparse.s_netloc := "";
          urlparse.s_path := s; urlparse.s_query := "";
          urlparse.s_fragment := "" |}.
Proof.
  intros Hc Hq Hf Hn. unfold urlparse.urlsplit, Py.find.
  rewrite (find_from_without _ _ _ Hc). cbn [Z.ltb Z.compare].
  unfold urlparse.split_rest. rewrite Hn, bind_ok, Hf, Hq. reflexivity.
Qed.

Lemma urlparse_path_only (s sch : string) :
  Py.contains ":" s = false -> Py.contains "?" s = false ->
  Py.contains "#" s = false -> Py.contains ";" s = false ->
  Py.startswith s "//" = false ->
  urlparse.urlparse s sch
  = ok {| urlparse.scheme := sch; urlparse.netloc := "";
          urlparse.path := s; urlparse.params := "";
          urlparse.query := ""; urlparse.fragment := "" |}.
Proof.
  intros Hc Hq Hf Hp Hn. unfold urlparse.urlparse.
  rewrite (urlsplit_path_only s sch Hc Hq Hf Hn), bind_ok.
  cbn [urlparse.s_path urlparse.s_scheme]. rewrite Hp, andb_false_r.
  reflexivity.
Qed.

(** Without scheme, network location, parameters, query and fragment,
    [urlunparse] gives the path back. *)
Lemma urlunparse_path_only (p : string) : urlparse.urlunparse "" "" p "" "" "" = p.
Proof. reflexivity. Qed.

Lemma not_rooted_no_netloc (s : string) :
  Py.startswith s "/" = false -> Py.startswith s "//" = false.
Proof.
  destruct s as [|a s]; cbn [Py.startswith]; [reflexivity|].
  rewrite andb_true_r. intros ->. reflexivity.
Qed.

(** The dot-segment passes of [urljoin] leave a list without [.] and
    [..] as it is. *)
Lemma blank_last_dot_id (l : list string) :
  l <> [] -> ~ In "." l -> urlparse.blank_last_dot l = l.
Proof.
  intros Hl Hd. unfold urlparse.blank_last_dot.
  destruct (String.eqb_spec (last l "") ".") as [E|_]; [|reflexivity].
  elim Hd. rewrite <- E.
  destruct (exists_last Hl) as [l0 [a ->]]. rewrite last_last.
  apply in_or_app. right. now left.
Qed.

Lemma remove_dots_id (l : list string) :
  ~ In "." l -> urlparse.remove_dots l = l.
Proof.
  intros Hd. unfold urlparse.remove_dots.
  induction l as [|w l IH]; cbn [filter]; [reflexivity|].
  destruct (String.eqb_spec w ".") as [->|_]; cbn [negb].
  - elim Hd. now left.
  - f_equal. apply IH. intros H. apply Hd. now right.
Qed.

Lemma del_dotdot_none (l : list string) :
  ~ In ".." l -> urlparse.del_dotdot l = None.
Proof.
  induction l as [|prev rest IH]; intros Hd; [reflexivity|].
  cbn [urlparse.del_dotdot].
  destruct rest as [|cur tl]; [reflexivity|].
  destruct tl as [|nxt tl]; [reflexivity|].
  destruct (String.eqb_spec cur "..") as [->|_].
  - elim Hd. right. now left.
  - cbn [andb]. rewrite IH; [reflexivity|].
    intros H. apply Hd. now right.
Qed.

Lemma collapse_id (fuel : nat) (l : list string) :
  ~ In ".." l -> urlparse.collapse fuel l = l.
Proof.
  intros Hd. destruct fuel; cbn [urlparse.collapse]; [reflexivity|].
  now rewrite del_dotdot_none.
Qed.

Lemma close_dotdot_id (l : list string) :
  ~ In ".." l -> urlparse.close_dotdot l = l.
Proof.
  intros Hd. unfold urlparse.close_dotdot.
  destruct (list_eq_dec string_dec l [""; ".."]) as [->|_].
  - elim Hd. right. now left.
  - destruct l as [|w l]; [reflexivity|].
    destruct (String.eqb_spec (last (w :: l) "") "..") as [E|_];
      [|now rewrite andb_false_r].
    elim Hd. rewrite <- E.
    destruct (@exists_last _ (w :: l)) as [l0 [a ->]]; [discriminate|].
    rewrite last_last. apply in_or_app. right. now left.
Qed.

(** Each pass of [collapse] that deletes makes the list shorter, so the
    loop is over before its fuel is. *)
Lemma del_dotdot_shorter (l l' : list string) :
  urlparse.del_dotdot l = Some l' -> (List.length l' < List.length l)%nat.
Proof.
  revert l'. induction l as [|prev rest IH]; intros l'; [discriminate|].
  cbn [urlparse.del_dotdot].
  destruct rest as [|cur tl]; [discriminate|].
  destruct tl as [|nxt tl]; [discriminate|].
  destruct (String.eqb cur ".." && negb (Py.mem prev [""; ".."])).
  - intros H. injection H as <-. cbn [List.length]. lia.
  - destruct (urlparse.del_dotdot (cur :: nxt :: tl)) as [r|] eqn:E;
      [|discriminate].
    cbn [option_map]. intros H. injection H as <-.
    specialize (IH r eq_refl). cbn [List.length] in *. lia.
Qed.

Lemma collapse_done (fuel : nat) (l : list string) :
  (List.length l <= fuel)%nat ->
  urlparse.del_dotdot (urlparse.collapse fuel l) = None.
Proof.
  revert l. induction fuel as [|fuel IH]; intros l Hl.
  - destruct l; [reflexivity | cbn [List.length] in Hl; lia].
  - cbn [urlparse.collapse].
    destruct (urlparse.del_dotdot l) as [r|] eqn:E; [|exact E].
    apply IH. apply del_dotdot_shorter in E. lia.
Qed.

(* ===================================================================== *)
(** ** Paths made of plain segments *)
(* ===================================================================== *)

Lemma plain_segments_no_dot (l : list string) :
  forallb plain_segment l = true -> ~ In "." l /\ ~ In ".." l.
Proof.
  intros Hl. rewrite forallb_forall in Hl.
  split; intros H; apply Hl in H; discriminate H.
Qed.

Lemma anchored_without (c : ascii) (rooted : bool) (l : list string) :
  In c [":"; "?"; "#"; ";"]%char ->
  forallb plain_segment l = true ->
  Py.contains c (anchored rooted l) = false.
Proof.
  intros Hc Hl. unfold anchored. rewrite contains_app.
  assert (Hs : c <> "/"%char).
  { intros ->. cbn [In] in Hc.
    destruct Hc as [H|[H|[H|[H|[]]]]]; discriminate H. }
  rewrite contains_join; [|exact Hs|].
  - destruct rooted; cbn [Py.contains]; [|reflexivity].
    destruct (Ascii.eqb_spec "/" c) as [E|_]; [now elim Hs | reflexivity].
  - apply plain_segments_without; [|exact Hl]. now right.
Qed.

Lemma anchored_truthy (rooted : bool) (l : list string) :
  l <> [] -> forallb plain_segment l = true ->
  Py.truthy (anchored rooted l) = true.
Proof.
  intros Hn Hl. unfold anchored. destruct rooted; [reflexivity|].
  destruct l as [|w l]; [congruence|].
  cbn [forallb] in Hl. apply andb_true_iff in Hl. destruct Hl as [Hw _].
  destruct (plain_segment_inv w Hw) as (Ht & _).
  destruct w; [discriminate Ht|]. destruct l; reflexivity.
Qed.

Lemma join_not_rooted (l : list string) :
  l <> [] -> forallb plain_segment l = true ->
  Py.startswith (Py.join "/" l) "/" = false.
Proof.
  intros Hn Hl. destruct l as [|w l]; [congruence|].
  cbn [forallb] in Hl. apply andb_true_iff in Hl. destruct Hl as [Hw _].
  now apply plain_not_rooted.
Qed.

Lemma anchored_no_netloc (rooted : bool) (l : list string) :
  l <> [] -> forallb plain_segment l = true ->
  Py.startswith (anchored rooted l) "//" = false.
Proof.
  intros Hn Hl. pose proof (join_not_rooted l Hn Hl) as H.
  unfold anchored. destruct rooted.
  - cbn [append Py.startswith Ascii.eqb Bool.eqb andb].
    destruct (Py.join "/" l) as [|a s]; [reflexivity|].
    cbn [Py.startswith] in H |- *. exact H.
  - now apply not_rooted_no_netloc.
Qed.

Lemma split_anchored (rooted : bool) (l : list string) :
  l <> [] -> forallb plain_segment l = true ->
  Py.split "/" (anchored rooted l)
  = ((if rooted then [""] else []) ++ l)%list.
Proof.
  intros Hn Hl. unfold anchored.
  assert (Hs : Py.split "/" (Py.join "/" l) = l).
  { apply split_join; [exact Hn|].
    apply plain_segments_without; [now left | exact Hl]. }
  destruct rooted; [|exact Hs].
  change ("/" ++ Py.join "/" l) with ("" ++ String "/" (Py.join "/" l)).
  rewrite split_cut; [|reflexivity]. now rewrite Hs.
Qed.

(** Anchoring at the root, as [relpath] does to both its arguments. *)
Lemma anchored_rooted (rooted : bool) (l : list string) :
  l <> [] -> forallb plain_segment l = true ->
  (if Py.startswith (anchored rooted l) "/" then anchored rooted l
   else "/" ++ anchored rooted l)
  = anchored true l.
Proof.
  intros Hn Hl. destruct rooted; [reflexivity|].
  unfold anchored at 1. cbn [append]. now rewrite (join_not_rooted l Hn Hl).
Qed.

Lemma diverge_prefix (l m : list string) :
  urlpath.diverge l (l ++ m) = List.length l.
Proof.
  induction l as [|w l IH]; cbn [urlpath.diverge app List.length].
  - destruct m; reflexivity.
  - now rewrite String.eqb_refl, IH.
Qed.

Lemma skipn_prefix (l m : list string) : skipn (List.length l) (l ++ m) = m.
Proof. induction l as [|w l IH]; [reflexivity | exact IH]. Qed.

Lemma forallb_plain_app (l m : list string) :
  forallb plain_segment l = true -> forallb plain_segment m = true ->
  forallb plain_segment (l ++ m) = true.
Proof. intros Hl Hm. now rewrite forallb_app, Hl, Hm. Qed.

(* ===================================================================== *)
(** ** Default mode *)
(* ===================================================================== *)

(** C5 (as the code has it): in default mode every URL (none is
    classified absolute) is rewritten to the relative path from
    [output_url] to the URL resolved against [source_url]; with source
    [/proj/css/sub/a.css], output [/proj/build/out.css] and URL
    [../img/x.png] the result is [../css/img/x.png]. *)
Theorem C5_default_mode_relative_to_output :
  (forall (I : Imports) (self : CSSRewriteFilter) (u : string),
      replace self = ReplaceFalse -> external self = ExternalFalse ->
      replace_url self u
      = (t <- urlparse_urljoin (source_url self) u ;;
         ok (urlpath_relpath (output_url self) t)))
  /\ urlparse.urljoin "/proj/css/sub/a.css" "../img/x.png"
     = ok "/proj/css/img/x.png"
  /\ replace_url (fresh proj_sub_to_build ReplaceFalse ExternalFalse)
       "../img/x.png"
     = ok "../css/img/x.png".
Proof.
  split; [|split; reflexivity].
  intros I self u Hr Hx. unfold replace_url.
  now rewrite Hr, Hx, is_abs_url_false.
Qed.

Lemma C5_witness :
  replace_url (fresh css_to_build ReplaceFalse ExternalFalse) "img/x.png"
  = ok "../css/img/x.png".
Proof.
  rewrite (proj1 C5_default_mode_relative_to_output PyImports
             (fresh css_to_build ReplaceFalse ExternalFalse) "img/x.png"
             eq_refl eq_refl).
  reflexivity.
Defined.

(** C5 fails as stated: the example is not rewritten to
    [css/img/x.png]; from [/proj/build/out.css] that path leads to
    [/proj/build/css/img/x.png], not to the referenced file. *)
Lemma C5_counterexample :
  replace_url (fresh proj_sub_to_build ReplaceFalse ExternalFalse)
    "../img/x.png"
  <> ok "css/img/x.png"
  /\ urlparse.urljoin "/proj/build/out.css" "css/img/x.png"
     = ok "/proj/build/css/img/x.png".
Proof. split; [discriminate | reflexivity]. Qed.


(* ===================================================================== *)
(** ** [input]: the rule dictionary and the resolver lookup *)
(* ===================================================================== *)

Lemma input_rule_replurl {I : Imports} (root : string) (d : OrderedDict)
      (repldir sub : string) :
  input_rule root d (repldir, sub) = od_setitem d (replurl root repldir) sub.
Proof. reflexivity. Qed.

Lemma od_setitem_in_keys (d : OrderedDict) (k v k0 : string) :
  In k0 (map fst (od_setitem d k v)) <-> k0 = k \/ In k0 (map fst d).
Proof.
  induction d as [|[k1 v1] d IH]; cbn [od_setitem map fst In].
  - intuition congruence.
  - destruct (String.eqb_spec k1 k) as [->|N]; cbn [map fst In].
    + intuition congruence.
    + rewrite IH. intuition congruence.
Qed.

Lemma od_setitem_nodup (d : OrderedDict) (k v : string) :
  NoDup (map fst d) -> NoDup (map fst (od_setitem d k v)).
Proof.
  induction d as [|[k1 v1] d IH]; cbn [od_setitem map fst]; intros Hd.
  - constructor; [intros [] | constructor].
  - inversion Hd as [|? ? Hk1 Hd']; subst.
    destruct (String.eqb_spec k1 k) as [->|N]; cbn [map fst].
    + constructor; assumption.
    + constructor; [|now apply IH].
      rewrite od_setitem_in_keys. intros [E|Hin]; [congruence | contradiction].
Qed.

(** An entry of the dictionary after an assignment is the assigned one
    or was there before. *)
Lemma od_setitem_in (d : OrderedDict) (k v k0 v0 : string) :
  In (k0, v0) (od_setitem d k v) -> (k0 = k /\ v0 = v) \/ In (k0, v0) d.
Proof.
  induction d as [|[k1 v1] d IH]; cbn [od_setitem In].
  - intros [E|[]]. injection E as <- <-. now left.
  - destruct (String.eqb_spec k1 k) as [->|N]; cbn [In].
    + intros [E|H]; [injection E as <- <-; now left | right; now right].
    + intros [E|H]; [right; now left|].
      destruct (IH H) as [?|?]; [now left | right; now right].
Qed.

(** The assigned entry is in the dictionary. *)
Lemma od_setitem_assigned (d : OrderedDict) (k v : string) :
  In (k, v) (od_setitem d k v).
Proof.
  induction d as [|[k1 v1] d IH]; cbn [od_setitem]; [now left|].
  destruct (String.eqb_spec k1 k) as [->|N]; [now left | now right].
Qed.

(** Assigning to another key leaves an entry alone. *)
Lemma od_setitem_other (d : OrderedDict) (k v k0 v0 : string) :
  k0 <> k -> In (k0, v0) d -> In (k0, v0) (od_setitem d k v).
Proof.
  intros Hk. induction d as [|[k1 v1] d IH]; cbn [od_setitem In]; [tauto|].
  destruct (String.eqb_spec k1 k) as [->|N]; cbn [In].
  - intros [E|H]; [injection E as E _; congruence | now right].
  - intros [E|H]; [now left | right; now apply IH].
Qed.

(** What the loop of [input] builds, from any dictionary it starts on. *)
Lemma input_rules_keys {I : Imports} (root : string)
      (items : list (string * string)) (acc : OrderedDict) (k : string) :
  In k (map fst (fold_left (input_rule root) items acc))
  <-> In k (map fst acc)
      \/ exists repldir sub, In (repldir, sub) items /\ k = replurl root repldir.
Proof.
  revert acc. induction items as [|[repldir sub] items IH]; intros acc;
    cbn [fold_left].
  - split; [now left | intros [H|(? & ? & [] & _)]; exact H].
  - rewrite IH, input_rule_replurl, od_setitem_in_keys. split.
    + intros [[->|H]|(r & s & Hin & ->)].
      * right. exists repldir, sub. split; [now left | reflexivity].
      * now left.
      * right. exists r, s. split; [now right | reflexivity].
    + intros [H|(r & s & [E|Hin] & ->)].
      * left. now right.
      * injection E as <- <-. left. now left.
      * right. exists r, s. now split.
Qed.

Lemma input_rules_nodup {I : Imports} (root : string)
      (items : list (string * string)) (acc : OrderedDict) :
  NoDup (map fst acc) ->
  NoDup (map fst (fold_left (input_rule root) items acc)).
Proof.
  revert acc. induction items as [|[repldir sub] items IH]; intros acc Hacc;
    cbn [fold_left]; [exact Hacc|].
  apply IH. rewrite input_rule_replurl. now apply od_setitem_nodup.
Qed.

Lemma input_rules_entries {I : Imports} (root : string)
      (items : list (string * string)) (acc : OrderedDict) (k v : string) :
  In (k, v) (fold_left (input_rule root) items acc) ->
  In (k, v) acc
  \/ exists repldir, In (repldir, v) items /\ k = replurl root repldir.
Proof.
  revert acc. induction items as [|[repldir sub] items IH]; intros acc;
    cbn [fold_left]; [now left|].
  intros H. apply IH in H. destruct H as [H|(r & Hin & ->)].
  - rewrite input_rule_replurl in H. apply od_setitem_in in H.
    destruct H as [[-> ->]|H]; [|now left].
    right. exists repldir. split; [now left | reflexivity].
  - right. exists r. split; [now right | reflexivity].
Qed.

(** An entry survives the rest of the loop when no later directory
    gives its prefix. *)
Lemma input_rules_keep {I : Imports} (root : string)
      (items : list (string * string)) (acc : OrderedDict) (k v : string) :
  In (k, v) acc ->
  Forall (fun rule => replurl root (fst rule) <> k) items ->
  In (k, v) (fold_left (input_rule root) items acc).
Proof.
  revert acc. induction items as [|[repldir sub] items IH]; intros acc Hin Hl;
    cbn [fold_left]; [exact Hin|].
  inversion Hl as [|? ? Hk Hl']; subst. cbn [fst] in Hk.
  apply IH; [|exact Hl']. rewrite input_rule_replurl.
  apply od_setitem_other; [congruence | exact Hin].
Qed.

(** X4: after [input], [replace_dict] holds one rule per URL prefix: its
    prefixes are pairwise different, they are exactly the prefixes
    derived from the configured directories, and every rule pairs such
    a prefix with a substitution that was configured for it. *)
Theorem X4_replace_dict_one_rule_per_prefix
        {I : Imports} (self self' : CSSRewriteFilter)
        (items : list (string * string)) :
  replace self = ReplaceMapping items ->
  input self = ok self' ->
  exists d : OrderedDict,
    replace_dict self' = Some d
    /\ NoDup (map fst d)
    /\ (forall k : string,
           In k (map fst d)
           <-> exists repldir sub,
               In (repldir, sub) items
               /\ k = replurl (addsep (directory (env self))) repldir)
    /\ (forall k v : string,
           In (k, v) d ->
           exists repldir,
             In (repldir, v) items
             /\ k = replurl (addsep (directory (env self))) repldir).
Proof.
  intros Hr Hin. pose proof (input_replace_dict _ _ Hin) as Hd.
  rewrite Hr in Hd. eexists. split; [exact Hd|]. split; [|split].
  - apply input_rules_nodup. constructor.
  - intros k. rewrite input_rules_keys. cbn [map In]. tauto.
  - intros k v H. apply input_rules_entries in H.
    destruct H as [[]|H]; exact H.
Qed.

Lemma X4_witness :
  exists d : OrderedDict,
    replace_dict both_configured = Some d /\ NoDup (map fst d).
Proof.
  destruct (X4_replace_dict_one_rule_per_prefix (I:=PyImports)
              (fresh (css_to_build_with None) (ReplaceMapping [("old", "/new/")])
                 (ExternalName "external_assets"))
              both_configured [("old", "/new/")] eq_refl eq_refl)
    as [d [Hd [Hn _]]].
  exists d. split; assumption.
Defined.

(** X5: when two configured directories give the same URL prefix, the
    substitution of the one that [self.replace] yields last is the one
    in [replace_dict]: a rule is in the dictionary as configured if no
    later directory gives its prefix. *)
Theorem X5_last_configured_substitution_wins
        {I : Imports} (self self' : CSSRewriteFilter)
        (before after : list (string * string)) (repldir sub : string) :
  replace self = ReplaceMapping (before ++ (repldir, sub) :: after) ->
  input self = ok self' ->
  Forall (fun rule =>
            replurl (addsep (directory (env self))) (fst rule)
            <> replurl (addsep (directory (env self))) repldir) after ->
  exists d : OrderedDict,
    replace_dict self' = Some d
    /\ In (replurl (addsep (directory (env self))) repldir, sub) d
    /\ forall v : string,
        In (replurl (addsep (directory (env self))) repldir, v) d -> v = sub.
Proof.
  intros Hr Hin Hafter. pose proof (input_replace_dict _ _ Hin) as Hd.
  rewrite Hr in Hd. eexists. split; [exact Hd|].
  set (root := addsep (directory (env self))) in *.
  assert (Hsub : In (replurl root repldir, sub)
                   (fold_left (input_rule root)
                      (before ++ (repldir, sub) :: after) [])).
  { rewrite fold_left_app. cbn [fold_left].
    apply input_rules_keep; [|exact Hafter].
    rewrite input_rule_replurl. apply od_setitem_assigned. }
  split; [exact Hsub|].
  intros v Hv.
  assert (Hn : NoDup (map fst (fold_left (input_rule root)
                                 (before ++ (repldir, sub) :: after) [])))
    by (apply input_rules_nodup; constructor).
  revert Hn Hsub Hv.
  generalize (fold_left (input_rule root) (before ++ (repldir, sub) :: after) []).
  generalize (replurl root repldir). clear.
  intros k d. induction d as [|[k1 v1] d IH]; cbn [map fst In]; [tauto|].
  intros Hn Hs Hv. inversion Hn as [|? ? Hk1 Hn']; subst.
  destruct Hs as [Es|Hs], Hv as [Ev|Hv].
  - congruence.
  - injection Es as -> _. elim Hk1. apply (in_map fst) in Hv. exact Hv.
  - injection Ev as -> _. elim Hk1. apply (in_map fst) in Hs. exact Hs.
  - now apply IH.
Qed.

Lemma X5_witness :
  exists d : OrderedDict,
    replace_dict
      (set_replace_dict
         (fresh css_to_build (ReplaceMapping [("old", "/a/"); ("old/", "/b/")])
            ExternalFalse)
         [("/old/", "/b/")])
    = Some d
    /\ In ("/old/", "/b/") d
    /\ forall v : string, In ("/old/", v) d -> v = "/b/".
Proof.
  exact (X5_last_configured_substitution_wins (I:=PyImports)
           (fresh css_to_build (ReplaceMapping [("old", "/a/"); ("old/", "/b/")])
              ExternalFalse)
           (set_replace_dict
              (fresh css_to_build (ReplaceMapping [("old", "/a/"); ("old/", "/b/")])
                 ExternalFalse)
              [("/old/", "/b/")])
           [("old", "/a/")] [] "old/" "/b/" eq_refl eq_refl (Forall_nil _)).
Defined.

(** X6: directories that give pairwise different URL prefixes enter
    [replace_dict] in the order in which [self.replace] yields them,
    each prefix with its substitution. *)
Theorem X6_rules_in_registration_order
        {I : Imports} (self self' : CSSRewriteFilter)
        (items : list (string * string)) :
  replace self = ReplaceMapping items ->
  input self = ok self' ->
  NoDup (map (fun rule => replurl (addsep (directory (env self))) (fst rule))
           items) ->
  replace_dict self'
  = Some (map (fun rule =>
                 (replurl (addsep (directory (env self))) (fst rule), snd rule))
            items).
Proof.
  intros Hr Hin Hn. pose proof (input_replace_dict _ _ Hin) as Hd.
  rewrite Hr in Hd. rewrite Hd. f_equal.
  set (root := addsep (directory (env self))) in *.
  assert (G : forall acc,
             NoDup (map fst acc
                    ++ map (fun rule => replurl root (fst rule)) items) ->
             fold_left (input_rule root) items acc
             = (acc ++ map (fun rule => (replurl root (fst rule), snd rule))
                  items)%list).
  { clear. induction items as [|[repldir sub] items IH]; intros acc Hnd;
      cbn [fold_left map fst snd].
    - now rewrite app_nil_r.
    - cbn [map fst] in Hnd. rewrite input_rule_replurl.
      pose proof (NoDup_remove_2 _ _ _ Hnd) as Hfresh.
      rewrite od_setitem_new
        by (intros H; apply Hfresh; apply in_or_app; now left).
      rewrite IH; [now rewrite <- app_assoc|].
      rewrite map_app, <- app_assoc. exact Hnd. }
  exact (G [] Hn).
Qed.

Lemma X6_witness :
  replace_dict
    (set_replace_dict
       (fresh css_to_build (ReplaceMapping [("a/b", "/x"); ("a", "/y")])
          ExternalFalse)
       [("/a/b/", "/x"); ("/a/", "/y")])
  = Some [("/a/b/", "/x"); ("/a/", "/y")].
Proof.
  apply (X6_rules_in_registration_order (I:=PyImports)
           (fresh css_to_build (ReplaceMapping [("a/b", "/x"); ("a", "/y")])
              ExternalFalse)
           (set_replace_dict
              (fresh css_to_build (ReplaceMapping [("a/b", "/x"); ("a", "/y")])
                 ExternalFalse)
              [("/a/b/", "/x"); ("/a/", "/y")])
           [("a/b", "/x"); ("a", "/y")] eq_refl eq_refl).
  repeat constructor; cbn [In]; intuition discriminate.
Defined.





(** X3: each run of [input] builds [replace_dict] anew from the
    mapping and the project directory: what [replace_dict] held before,
    the resolver, and the contexts have no influence on it, so the same
    mapping gives every source file the same rules. *)
Theorem X3_rules_rebuilt_from_the_mapping
        {I : Imports} (self other self' other' : CSSRewriteFilter)
        (items : list (string * string)) :
  replace self = ReplaceMapping items ->
  replace other = ReplaceMapping items ->
  directory (env other) = directory (env self) ->
  input self = ok self' ->
  input other = ok other' ->
  replace_dict other' = replace_dict self'
  /\ exists d : OrderedDict, replace_dict self' = Some d.
Proof.
  intros Hr Ho Hd Hin Hin'.
  pose proof (input_replace_dict _ _ Hin) as E.
  pose proof (input_replace_dict _ _ Hin') as E'.
  rewrite Hr in E. rewrite Ho, Hd in E'. split.
  - now rewrite E, E'.
  - eexists. exact E.
Qed.

Lemma X3_witness :
  replace_dict both_configured
  = replace_dict
      (set_replace_dict
         (fresh css_to_build (ReplaceMapping [("old", "/new/")]) ExternalFalse)
         [("/old/", "/new/")])
  /\ exists d : OrderedDict,
      replace_dict
        (set_replace_dict
           (fresh css_to_build (ReplaceMapping [("old", "/new/")]) ExternalFalse)
           [("/old/", "/new/")])
      = Some d.
Proof.
  exact (X3_rules_rebuilt_from_the_mapping (I:=PyImports)
           (fresh css_to_build (ReplaceMapping [("old", "/new/")]) ExternalFalse)
           both_configured
           (set_replace_dict
              (fresh css_to_build (ReplaceMapping [("old", "/new/")]) ExternalFalse)
              [("/old/", "/new/")])
           both_configured
           [("old", "/new/")] eq_refl eq_refl eq_refl eq_refl eq_refl).
Defined.

(** X1: built with [external=None] (and [replace=False]), the instance
    reaches [replace_url] without [external_assets], since [input]
    skips [None] while [replace_url] only skips [False]; every URL then
    raises [AttributeError].  The base constructor is taken to
    succeed. *)
Theorem X1_external_None_has_no_external_assets
        {I : Imports} (b : Binding) :
  super_init = ok tt ->
  prepared b ReplaceFalse ExternalNone = ok (fresh b ReplaceFalse ExternalNone)
  /\ forall u : string,
      replace_url (fresh b ReplaceFalse ExternalNone) u
      = raise (AttributeError "external_assets").
Proof.
  intros Hinit. split.
  - unfold prepared, __init__. rewrite Hinit. reflexivity.
  - intros u. unfold replace_url. cbn [fresh replace external
      replace_is_not_False external_is_not_False].
    rewrite is_abs_url_false. reflexivity.
Qed.

Lemma X1_witness :
  prepared css_to_build ReplaceFalse ExternalNone
  = ok (fresh css_to_build ReplaceFalse ExternalNone)
  /\ replace_url (fresh css_to_build ReplaceFalse ExternalNone) "img/x.png"
     = raise (AttributeError "external_assets").
Proof.
  destruct (X1_external_None_has_no_external_assets (I:=PyImports)
              css_to_build eq_refl) as [Hp Hu].
  split; [exact Hp | apply Hu].
Defined.

(* ===================================================================== *)
(** ** [replace_url]: what each mode returns and reads *)
(* ===================================================================== *)

Lemma startswith_split (t p : string) :
  Py.startswith t p = true -> t = p ++ Py.drop (String.length p) t.
Proof.
  revert t. induction p as [|a p IH]; intros t; cbn [Py.startswith]; [reflexivity|].
  destruct t as [|b t]; [discriminate|].
  intros H. apply andb_true_iff in H. destruct H as [Hab Ht].
  apply Ascii.eqb_eq in Hab. subst b.
  cbn [String.length Py.drop append]. f_equal. now apply IH.
Qed.

(** Every result of the rule loop is the URL as given, no rule having
    matched, or the substitution of the first matching rule followed by
    the rest of the resolved URL. *)
Lemma replace_loop_result {I : Imports} (self : CSSRewriteFilter)
      (d : OrderedDict) (u r : string) :
  replace_loop self d u = ok r ->
  (r = u
   /\ forall t, urlparse_urljoin (source_url self) u = ok t ->
                Forall (fun rule => Py.startswith t (fst rule) = false) d)
  \/ exists pre p sub post rest,
      d = (pre ++ (p, sub) :: post)%list
      /\ urlparse_urljoin (source_url self) u = ok (p ++ rest)
      /\ Forall (fun rule => Py.startswith (p ++ rest) (fst rule) = false) pre
      /\ r = sub ++ rest.
Proof.
  induction d as [|[p sub] d IH]; cbn [replace_loop].
  - intros H. injection H as <-. left. split; [reflexivity|]. constructor.
  - destruct (urlparse_urljoin (source_url self) u) as [e|t] eqn:Ht;
      [discriminate|]. rewrite bind_ok.
    destruct (Py.startswith t p) eqn:Hp.
    + intros H. injection H as <-. right.
      exists [], p, sub, d, (Py.drop (String.length p) t).
      rewrite <- (startswith_split t p Hp).
      repeat split; constructor.
    + intros H. destruct (IH H) as [[-> Hno]|(pre & q & s & post & rest & -> & E & Hpre & ->)].
      * left. split; [reflexivity|]. intros t' Et. injection Et as <-.
        constructor; [exact Hp | now apply Hno].
      * right. exists ((p, sub) :: pre), q, s, post, rest.
        injection E as ->.
        repeat split; try reflexivity. constructor; assumption.
Qed.

(** X7: in replace mode a URL is returned either exactly as given, when
    no rule prefix matches its resolved form, or as the substitution of
    the first matching rule followed by what the resolved form has
    after that prefix; replace mode returns nothing else. *)
Theorem X7_replace_mode_returns_url_or_substitution
        {I : Imports} (self : CSSRewriteFilter) (d : OrderedDict)
        (u r : string) :
  replace_is_not_False (replace self) = true ->
  replace_dict self = Some d ->
  replace_url self u = ok r ->
  (r = u
   /\ forall t, urlparse_urljoin (source_url self) u = ok t ->
                Forall (fun rule => Py.startswith t (fst rule) = false) d)
  \/ exists pre p sub post rest,
      d = (pre ++ (p, sub) :: post)%list
      /\ urlparse_urljoin (source_url self) u = ok (p ++ rest)
      /\ Forall (fun rule => Py.startswith (p ++ rest) (fst rule) = false) pre
      /\ r = sub ++ rest.
Proof.
  intros Hr Hd. unfold replace_url. rewrite Hr, Hd. cbn [getattr].
  rewrite bind_ok. apply replace_loop_result.
Qed.

Lemma X7_witness :
  ("/y/c.png" = "../a/c.png"
   /\ forall t,
       urlparse_urljoin "/css/a.css" "../a/c.png" = ok t ->
       Forall (fun rule => Py.startswith t (fst rule) = false)
         [("/a/b/", "/x/"); ("/a/", "/y/")])
  \/ exists pre p sub post rest,
      [("/a/b/", "/x/"); ("/a/", "/y/")] = (pre ++ (p, sub) :: post)%list
      /\ urlparse_urljoin "/css/a.css" "../a/c.png" = ok (p ++ rest)
      /\ Forall (fun rule => Py.startswith (p ++ rest) (fst rule) = false) pre
      /\ "/y/c.png" = sub ++ rest.
Proof.
  exact (X7_replace_mode_returns_url_or_substitution (I:=PyImports)
           (set_replace_dict
              (fresh css_to_build (ReplaceMapping [("a/b", "/x/"); ("a", "/y/")])
                 ExternalFalse)
              [("/a/b/", "/x/"); ("/a/", "/y/")])
           [("/a/b/", "/x/"); ("/a/", "/y/")] "../a/c.png" "/y/c.png"
           eq_refl eq_refl eq_refl).
Defined.

(** X8: in replace mode the URL is resolved once per rule tried; with
    no rule at all it is returned as given without being resolved, and
    with at least one rule whatever [urljoin] raises for it is raised. *)
Theorem X8_replace_mode_resolves_only_with_rules
        {I : Imports} (self : CSSRewriteFilter) (d : OrderedDict) (u : string) :
  replace_is_not_False (replace self) = true ->
  replace_dict self = Some d ->
  (d = [] -> replace_url self u = ok u)
  /\ (forall e : exn,
         d <> [] ->
         urlparse_urljoin (source_url self) u = raise e ->
         replace_url self u = raise e).
Proof.
  intros Hr Hd. unfold replace_url. rewrite Hr, Hd. cbn [getattr].
  rewrite bind_ok. split.
  - intros ->. reflexivity.
  - intros e Hne He. destruct d as [|[p sub] d]; [congruence|].
    cbn [replace_loop]. rewrite He. reflexivity.
Qed.

Lemma X8_witness :
  replace_url (set_replace_dict
                 (fresh css_to_build (ReplaceMapping []) ExternalFalse) [])
    "http://[::1/x.png"
  = ok "http://[::1/x.png"
  /\ replace_url (set_replace_dict
                    (fresh css_to_build (ReplaceMapping [("old", "/new/")])
                       ExternalFalse)
                    [("/old/", "/new/")])
       "http://[::1/x.png"
     = raise (ValueError "Invalid IPv6 URL").
Proof.
  split.
  - apply (proj1 (X8_replace_mode_resolves_only_with_rules (I:=PyImports)
                    (set_replace_dict
                       (fresh css_to_build (ReplaceMapping []) ExternalFalse) [])
                    [] "http://[::1/x.png" eq_refl eq_refl)).
    reflexivity.
  - apply (proj2 (X8_replace_mode_resolves_only_with_rules (I:=PyImports)
                    (set_replace_dict
                       (fresh css_to_build (ReplaceMapping [("old", "/new/")])
                          ExternalFalse)
                       [("/old/", "/new/")])
                    [("/old/", "/new/")] "http://[::1/x.png" eq_refl eq_refl)).
    + discriminate.
    + reflexivity.
Defined.

(** The rule loop reads the instance only for [source_url]. *)
Lemma replace_loop_reads_source_url {I : Imports}
      (self other : CSSRewriteFilter) (d : OrderedDict) (u : string) :
  source_url other = source_url self ->
  replace_loop other d u = replace_loop self d u.
Proof.
  intros Hs. induction d as [|[p sub] d IH]; cbn [replace_loop]; [reflexivity|].
  now rewrite Hs, IH.
Qed.

(** X10: in replace mode the result depends on the instance only
    through [replace_dict] and [source_url]: the resolver, the
    environment, the paths and the output URL are not read, whatever
    they are. *)
Theorem X10_replace_mode_reads_rules_and_source_url
        {I : Imports} (self other : CSSRewriteFilter) (u : string) :
  replace_is_not_False (replace self) = true ->
  replace_is_not_False (replace other) = true ->
  replace_dict other = replace_dict self ->
  source_url other = source_url self ->
  replace_url other u = replace_url self u.
Proof.
  intros Hr Ho Hd Hs. unfold replace_url. rewrite Hr, Ho, Hd.
  destruct (replace_dict self) as [d|]; [|reflexivity].
  cbn [getattr]. rewrite !bind_ok. now apply replace_loop_reads_source_url.
Qed.

Lemma X10_witness :
  replace_url both_configured "/old/x.png"
  = replace_url (set_replace_dict
                   (fresh css_to_build (ReplaceMapping [("old", "/new/")])
                      ExternalFalse)
                   [("/old/", "/new/")])
      "/old/x.png".
Proof.
  apply (X10_replace_mode_reads_rules_and_source_url (I:=PyImports)
           (set_replace_dict
              (fresh css_to_build (ReplaceMapping [("old", "/new/")])
                 ExternalFalse)
              [("/old/", "/new/")])
           both_configured "/old/x.png").
  - reflexivity.
  - reflexivity.
  - reflexivity.
  - reflexivity.
Defined.

(** X9: in external mode the result does not depend on [source_url] or
    [output_url]: [replacement] is assigned on every path through the
    branches on [env.url], so the fall-back to the relative path between
    the two URLs is never taken. *)
Theorem X9_external_mode_never_falls_back
        {I : Imports} (self other : CSSRewriteFilter) (u : string) :
  replace self = ReplaceFalse -> replace other = ReplaceFalse ->
  external_is_not_False (external self) = true ->
  external_is_not_False (external other) = true ->
  env other = env self ->
  external_assets other = external_assets self ->
  source_path other = source_path self ->
  output_path other = output_path self ->
  replace_url other u = replace_url self u.
Proof.
  intros Hr Hr' Hx Hx' He Ha Hsp Hop. unfold replace_url.
  rewrite Hr, Hr', Hx, Hx', is_abs_url_false.
  cbn [replace_is_not_False negb]. unfold external_rewrite.
  rewrite Ha, Hsp.
  destruct (external_assets self) as [a|]; [|reflexivity].
  cbn [getattr]. rewrite !bind_ok.
  destruct (versioned_folder a (urlpath_pathjoin (source_path self) u))
    as [e|asset_path]; [reflexivity|].
  rewrite !bind_ok. unfold external_replacement. rewrite He, Hop.
  destruct (url (env self)) as [publish|]; [|reflexivity].
  destruct (Py.truthy publish); [|reflexivity].
  destruct (Py.startswith publish "http://" || Py.startswith publish "https://"
            || Py.startswith publish "//"); [|reflexivity].
  destruct (urlparse_urljoin publish asset_path); reflexivity.
Qed.

Lemma X9_witness :
  replace_url (external_ready_elsewhere None) "../img/x.png"
  = replace_url (external_ready None) "../img/x.png".
Proof.
  apply (X9_external_mode_never_falls_back (I:=PyImports)
           (external_ready None) (external_ready_elsewhere None) "../img/x.png").
  - reflexivity.
  - reflexivity.
  - reflexivity.
  - reflexivity.
  - reflexivity.
  - reflexivity.
  - reflexivity.
  - reflexivity.
Defined.

(* ===================================================================== *)
(** ** Default mode: ascents, and the way back from the output *)
(* ===================================================================== *)

(** The scan of [del_dotdot] moves on from a segment that is not [..]. *)
Lemma del_dotdot_step (prev cur nxt : string) (tl : list string) :
  cur <> ".." ->
  urlparse.del_dotdot (prev :: cur :: nxt :: tl)
  = option_map (cons prev) (urlparse.del_dotdot (cur :: nxt :: tl)).
Proof.
  intros Hc.
  change (urlparse.del_dotdot (prev :: cur :: nxt :: tl))
    with (if String.eqb cur ".." && negb (Py.mem prev [""; ".."])
          then Some (nxt :: tl)
          else option_map (cons prev) (urlparse.del_dotdot (cur :: nxt :: tl))).
  destruct (String.eqb_spec cur "..") as [E|_]; [contradiction | reflexivity].
Qed.

(** The first [..] that follows a named segment is deleted with it. *)
Lemma del_dotdot_first (A B : list string) (x : string) :
  ~ In ".." A -> x <> "" -> x <> ".." -> B <> [] ->
  urlparse.del_dotdot (A ++ x :: ".." :: B) = Some (A ++ B)%list.
Proof.
  intros HA Hx1 Hx2 HB. induction A as [|a A IH]; cbn [app].
  - destruct B as [|b B]; [congruence|].
    change (urlparse.del_dotdot (x :: ".." :: b :: B))
      with (if String.eqb ".." ".." && negb (Py.mem x [""; ".."])
            then Some (b :: B)
            else option_map (cons x) (urlparse.del_dotdot (".." :: b :: B))).
    unfold Py.mem. cbn [existsb].
    destruct (String.eqb_spec x "") as [E|_]; [contradiction|].
    destruct (String.eqb_spec x "..") as [E|_]; [contradiction|].
    reflexivity.
  - assert (HA' : ~ In ".." A) by (intros H; apply HA; now right).
    specialize (IH HA').
    assert (Hshape : exists cur nxt tl,
               (A ++ x :: ".." :: B)%list = cur :: nxt :: tl /\ cur <> "..").
    { destruct A as [|a2 A]; cbn [app].
      - exists x, "..", B. now split.
      - assert (Ha2 : a2 <> "..") by (intros ->; apply HA'; now left).
        destruct A as [|a3 A]; cbn [app]; eauto. }
    destruct Hshape as (cur & nxt & tl & E & Hcur).
    rewrite E in *. rewrite (del_dotdot_step a cur nxt tl Hcur), IH.
    reflexivity.
Qed.

(** As many [..] as there are named segments before them take those
    segments away, whatever comes before and after. *)
Lemma collapse_ascents (O A R : list string) (fuel : nat) :
  ~ In ".." A ->
  Forall (fun w => w <> "" /\ w <> "..") O ->
  R <> [] -> ~ In ".." R ->
  (List.length O <= fuel)%nat ->
  urlparse.collapse fuel (A ++ O ++ repeat ".." (List.length O) ++ R)
  = (A ++ R)%list.
Proof.
  revert fuel. induction O as [|x O IH] using rev_ind; intros fuel HA HO HR HR2 Hf.
  - cbn [List.length repeat app]. apply collapse_id.
    intros H. apply in_app_or in H. tauto.
  - rewrite length_app in *. cbn [List.length] in *.
    rewrite Nat.add_1_r in *. destruct fuel as [|fuel]; [lia|].
    apply Forall_app in HO. destruct HO as [HO Hx].
    inversion Hx as [|? ? [Hx1 Hx2] _]; subst.
    cbn [repeat urlparse.collapse].
    replace (A ++ (O ++ [x]) ++ (".." :: repeat ".." (List.length O)) ++ R)%list
      with ((A ++ O) ++ x :: ".." :: (repeat ".." (List.length O) ++ R))%list
      by (now rewrite <- !app_assoc).
    rewrite del_dotdot_first; try assumption.
    + rewrite <- app_assoc. apply IH; try assumption. lia.
    + intros H. apply in_app_or in H. destruct H as [H|H]; [tauto|].
      rewrite Forall_forall in HO. apply HO in H. tauto.
    + destruct R; [congruence|]. destruct (repeat ".." (List.length O)); discriminate.
Qed.

Lemma plain_segments_named (l : list string) :
  forallb plain_segment l = true ->
  Forall (fun w => w <> "" /\ w <> "..") l.
Proof.
  intros Hl. rewrite forallb_forall in Hl. apply Forall_forall.
  intros w Hw. destruct (plain_segment_inv w (Hl w Hw)) as (Ht & _ & _ & _ & _ & _ & _ & Hd).
  split; [|exact Hd]. intros ->. discriminate Ht.
Qed.

Lemma in_firstn (w : string) (n : nat) (l : list string) :
  In w (firstn n l) -> In w l.
Proof.
  intros H. rewrite <- (firstn_skipn n l). apply in_or_app. now left.
Qed.

Lemma forallb_firstn (f : string -> bool) (n : nat) (l : list string) :
  forallb f l = true -> forallb f (firstn n l) = true.
Proof.
  intros Hl. rewrite forallb_forall in *. intros w Hw.
  apply Hl. rewrite <- (firstn_skipn n l). apply in_or_app. now left.
Qed.

Lemma forallb_skipn (f : string -> bool) (n : nat) (l : list string) :
  forallb f l = true -> forallb f (skipn n l) = true.
Proof.
  intros Hl. rewrite forallb_forall in *. intros w Hw.
  apply Hl. rewrite <- (firstn_skipn n l). apply in_or_app. now right.
Qed.

(** A relative URL of [j] ascents followed by plain segments. *)
Lemma ascending_without (c : ascii) (j : nat) (segs : list string) :
  In c [":"; "?"; "#"; ";"]%char ->
  forallb plain_segment segs = true ->
  Py.contains c (Py.join "/" (repeat ".." j ++ segs)) = false.
Proof.
  intros Hc Hs. apply contains_join.
  - intros ->. cbn [In] in Hc. intuition discriminate.
  - rewrite forallb_app. apply andb_true_iff. split.
    + induction j as [|j IH]; [reflexivity|]. cbn [repeat forallb].
      rewrite IH, andb_true_r. cbn [In] in Hc.
      destruct Hc as [<-|[<-|[<-|[<-|[]]]]]; reflexivity.
    + apply plain_segments_without; [now right | exact Hs].
Qed.

Lemma ascending_split (j : nat) (segs : list string) :
  segs <> [] -> forallb plain_segment segs = true ->
  Py.split "/" (Py.join "/" (repeat ".." j ++ segs))
  = (repeat ".." j ++ segs)%list.
Proof.
  intros Hn Hs. apply split_join.
  - destruct segs; [congruence|]. destruct (repeat ".." j); discriminate.
  - rewrite forallb_app. apply andb_true_iff. split.
    + induction j as [|j IH]; [reflexivity|]. cbn [repeat forallb].
      now rewrite IH.
    + apply plain_segments_without; [now left | exact Hs].
Qed.

Lemma ascending_not_rooted (j : nat) (segs : list string) :
  segs <> [] -> forallb plain_segment segs = true ->
  Py.startswith (Py.join "/" (repeat ".." j ++ segs)) "/" = false
  /\ Py.truthy (Py.join "/" (repeat ".." j ++ segs)) = true.
Proof.
  intros Hn Hs. destruct j as [|j].
  - cbn [repeat app]. split; [now apply join_not_rooted|].
    now apply (anchored_truthy false).
  - cbn [repeat app].
    destruct (repeat ".." j ++ segs)%list eqn:E.
    + destruct segs; [congruence|]. destruct (repeat ".." j); discriminate E.
    + rewrite join_cons. split; reflexivity.
Qed.

(** [urljoin] of [j] ascents and a plain path onto a file URL whose
    directory is at least [j] deep: the path lands [j] directories up. *)
Lemma urljoin_ascending (rooted : bool) (dirs segs : list string)
      (name : string) (j : nat) :
  forallb plain_segment dirs = true -> plain_segment name = true ->
  segs <> [] -> forallb plain_segment segs = true ->
  (j <= List.length dirs)%nat ->
  urlparse.urljoin (url_in rooted dirs name)
    (Py.join "/" (repeat ".." j ++ segs))
  = ok (anchored rooted (firstn (List.length dirs - j) dirs ++ segs)).
Proof.
  intros Hd Hname Hn Hs Hj. unfold url_in.
  assert (Hb : forallb plain_segment (dirs ++ [name]) = true).
  { apply forallb_plain_app; [exact Hd|]. cbn [forallb]. now rewrite Hname. }
  assert (Hbn : (dirs ++ [name])%list <> []) by (destruct dirs; discriminate).
  destruct (ascending_not_rooted j segs Hn Hs) as [Hrel Htr].
  unfold urlparse.urljoin.
  rewrite (anchored_truthy rooted _ Hbn Hb), Htr. cbn [negb].
  rewrite (urlparse_path_only (anchored rooted (dirs ++ [name])) "");
    try (apply anchored_without; [cbn [In]; tauto | exact Hb]);
    [|now apply anchored_no_netloc].
  rewrite bind_ok. cbn [urlparse.scheme].
  rewrite (urlparse_path_only (Py.join "/" (repeat ".." j ++ segs)) "");
    try (apply ascending_without; [cbn [In]; tauto | exact Hs]);
    [|now apply not_rooted_no_netloc].
  rewrite bind_ok.
  cbn [urlparse.scheme urlparse.netloc urlparse.path urlparse.params
       urlparse.query urlparse.fragment].
  change (negb (String.eqb "" "") || negb (Py.mem "" urlparse.uses_relative))
    with false.
  change (Py.mem "" urlparse.uses_netloc && Py.truthy "") with false.
  change (Py.mem "" urlparse.uses_netloc) with true.
  cbn iota. rewrite Hrel, Htr. cbn [negb andb].
  rewrite (split_anchored rooted _ Hbn Hb), (ascending_split j segs Hn Hs).
  rewrite (app_assoc _ dirs [name]), removelast_last.
  set (root := if rooted then [""] else []).
  set (A := (root ++ firstn (List.length dirs - j) dirs)%list).
  set (O := skipn (List.length dirs - j) dirs).
  assert (HO : List.length O = j).
  { unfold O. rewrite length_skipn. lia. }
  assert (Hseg : ((root ++ dirs) ++ repeat ".." j ++ segs)%list
                 = (A ++ O ++ repeat ".." (List.length O) ++ segs)%list).
  { rewrite HO. unfold A, O. rewrite <- !app_assoc. f_equal.
    now rewrite (app_assoc (firstn _ dirs) (skipn _ dirs)), firstn_skipn. }
  rewrite Hseg.
  destruct (plain_segments_no_dot _ Hd) as [D1 D2].
  destruct (plain_segments_no_dot _ Hs) as [S1 S2].
  assert (HA1 : ~ In "." A /\ ~ In ".." A).
  { unfold A, root. split; intros H; apply in_app_or in H;
      destruct H as [H|H];
      try (destruct rooted; cbn [In] in H; intuition discriminate);
      apply in_firstn in H; contradiction. }
  destruct HA1 as [A1 A2].
  assert (HO1 : ~ In "." O).
  { unfold O. intros H. apply D1. rewrite <- (firstn_skipn (List.length dirs - j) dirs).
    apply in_or_app. now right. }
  assert (HOn : Forall (fun w => w <> "" /\ w <> "..") O).
  { unfold O. apply plain_segments_named. now apply forallb_skipn. }
  assert (Hne : (A ++ O ++ repeat ".." (List.length O) ++ segs)%list <> []).
  { destruct segs; [congruence|]. intros H.
    apply app_eq_nil in H. destruct H as [_ H].
    apply app_eq_nil in H. destruct H as [_ H].
    apply app_eq_nil in H. destruct H as [_ H]. discriminate H. }
  assert (Hnodot : ~ In "." (A ++ O ++ repeat ".." (List.length O) ++ segs)).
  { intros H.
    apply in_app_or in H. destruct H as [H|H]; [contradiction|].
    apply in_app_or in H. destruct H as [H|H]; [contradiction|].
    apply in_app_or in H. destruct H as [H|H]; [|contradiction].
    apply repeat_spec in H. discriminate H. }
  rewrite (blank_last_dot_id _ Hne Hnodot), (remove_dots_id _ Hnodot).
  rewrite collapse_ascents; try assumption.
  - assert (HAR : ~ In ".." (A ++ segs)).
    { intros H. apply in_app_or in H. tauto. }
    rewrite (close_dotdot_id _ HAR), urlunparse_path_only.
    unfold A, root, anchored. f_equal.
    destruct rooted; cbn [app append]; [|reflexivity].
    rewrite join_rooted; [reflexivity|].
    destruct segs; [congruence|].
    destruct (firstn (List.length dirs - j) dirs); discriminate.
  - rewrite !length_app. lia.
Qed.

Lemma diverge_le (l m : list string) :
  (urlpath.diverge l m <= List.length l)%nat.
Proof.
  revert m. induction l as [|a l IH]; intros m; cbn [urlpath.diverge List.length];
    [lia|].
  destruct m as [|b m]; [lia|].
  destruct (String.eqb a b); [|lia]. specialize (IH m). lia.
Qed.

(** Up to where they diverge, two paths are the same. *)
Lemma diverge_firstn (l m : list string) :
  firstn (urlpath.diverge l m) l = firstn (urlpath.diverge l m) m.
Proof.
  revert m. induction l as [|a l IH]; intros m; cbn [urlpath.diverge];
    [reflexivity|].
  destruct m as [|b m]; [reflexivity|].
  destruct (String.eqb_spec a b) as [->|_]; [|reflexivity].
  cbn [firstn]. now rewrite IH.
Qed.

(** Nothing of [m] is left after the point of divergence only when [m]
    is where [l] begins. *)
Lemma diverge_all (l m : list string) :
  skipn (urlpath.diverge l m) m = [] -> exists tail, l = (m ++ tail)%list.
Proof.
  revert m. induction l as [|a l IH]; intros m; cbn [urlpath.diverge].
  - destruct m; cbn [skipn]; [intros _; now exists [] | discriminate].
  - destruct m as [|b m]; [intros _; now exists (a :: l)|].
    destruct (String.eqb_spec a b) as [->|_]; cbn [skipn]; [|discriminate].
    intros H. destruct (IH m H) as [tail ->]. now exists tail.
Qed.

(** [relpath] from a file to a path that is not a directory above it:
    one ascent per directory of the file below the point where the two
    diverge, then the rest of the path. *)
Lemma relpath_between (rooted : bool) (dirs T : list string) (name : string) :
  forallb plain_segment dirs = true -> plain_segment name = true ->
  T <> [] -> forallb plain_segment T = true ->
  skipn (urlpath.diverge dirs T) T <> [] ->
  urlpath.relpath (url_in rooted dirs name) (anchored rooted T)
  = Py.join "/" (repeat ".." (List.length dirs - urlpath.diverge dirs T)
                 ++ skipn (urlpath.diverge dirs T) T).
Proof.
  intros Hd Hname Hn Ht Hrest. unfold url_in.
  assert (Hb : forallb plain_segment (dirs ++ [name]) = true).
  { apply forallb_plain_app; [exact Hd|]. cbn [forallb]. now rewrite Hname. }
  assert (Hbn : (dirs ++ [name])%list <> []) by (destruct dirs; discriminate).
  unfold urlpath.relpath.
  rewrite (anchored_rooted rooted _ Hbn Hb), (anchored_rooted rooted _ Hn Ht).
  rewrite (split_anchored true _ Hbn Hb), (split_anchored true _ Hn Ht).
  cbn [app].
  change ("" :: dirs ++ [name])%list with (("" :: dirs) ++ [name])%list.
  rewrite removelast_last. cbn [hd]. cbn [String.eqb negb].
  unfold urlpath.climb. cbn [urlpath.diverge String.eqb List.length skipn].
  cbn [Nat.sub].
  destruct (repeat ".." (List.length dirs - urlpath.diverge dirs T)
            ++ skipn (urlpath.diverge dirs T) T)%list eqn:E; [|reflexivity].
  apply app_eq_nil in E. destruct E as [_ E]. contradiction.
Qed.

(** X11: in default mode the rewritten URL, resolved from the output
    file, is the file the URL referred to from the source file.  This
    is shown for source and output URLs made of plain segments, both
    written from the root or both without it, and a
    URL of [j] ascents (no more than the source is deep) followed by
    plain segments, when the file referred to is not a directory above
    the output file; [urljoin] is Python 2's and [relpath] as modelled
    from the spec. *)
Theorem X11_default_mode_points_to_the_same_file
        (self : CSSRewriteFilter) (rooted : bool)
        (source_dirs output_dirs segs : list string)
        (source_name output_name : string) (j : nat) :
  replace self = ReplaceFalse -> external self = ExternalFalse ->
  forallb plain_segment source_dirs = true ->
  forallb plain_segment output_dirs = true ->
  plain_segment source_name = true -> plain_segment output_name = true ->
  source_url self = url_in rooted source_dirs source_name ->
  output_url self = url_in rooted output_dirs output_name ->
  (j <= List.length source_dirs)%nat ->
  segs <> [] -> forallb plain_segment segs = true ->
  (forall tail : list string,
      output_dirs
      <> ((firstn (List.length source_dirs - j) source_dirs ++ segs) ++ tail)%list) ->
  exists r : string,
    replace_url self (Py.join "/" (repeat ".." j ++ segs)) = ok r
    /\ urlparse.urljoin (output_url self) r
       = ok (anchored rooted
               (firstn (List.length source_dirs - j) source_dirs ++ segs))
    /\ urlparse.urljoin (source_url self) (Py.join "/" (repeat ".." j ++ segs))
       = ok (anchored rooted
               (firstn (List.length source_dirs - j) source_dirs ++ segs)).
Proof.
  intros Hr Hx Hds Hdo Hsn Hon Hsu Hou Hj Hn Hs Hnot.
  set (T := (firstn (List.length source_dirs - j) source_dirs ++ segs)%list) in *.
  assert (HT : forallb plain_segment T = true).
  { unfold T. apply forallb_plain_app; [now apply forallb_firstn | exact Hs]. }
  assert (HTn : T <> []).
  { unfold T. destruct segs; [congruence|].
    destruct (firstn (List.length source_dirs - j) source_dirs); discriminate. }
  set (i := urlpath.diverge output_dirs T).
  assert (Hrest : skipn i T <> []).
  { intros H. destruct (diverge_all output_dirs T H) as [tail E].
    exact (Hnot tail E). }
  pose proof (urljoin_ascending rooted source_dirs segs source_name j
                Hds Hsn Hn Hs Hj) as Hjoin.
  fold T in Hjoin.
  exists (Py.join "/" (repeat ".." (List.length output_dirs - i) ++ skipn i T)).
  split; [|split].
  - unfold replace_url. rewrite Hr, Hx, is_abs_url_false.
    cbn [replace_is_not_False external_is_not_False negb].
    unfold default_rewrite.
    cbn [urlparse_urljoin urlpath_relpath PyImports].
    rewrite Hsu, Hou, Hjoin, bind_ok. f_equal.
    now apply relpath_between.
  - rewrite Hou.
    rewrite (urljoin_ascending rooted output_dirs (skipn i T) output_name
               (List.length output_dirs - i) Hdo Hon Hrest
               (forallb_skipn _ _ _ HT)) by lia.
    pose proof (diverge_le output_dirs T) as Hle. fold i in Hle.
    replace (List.length output_dirs - (List.length output_dirs - i))%nat
      with i by lia.
    unfold i at 1 2. rewrite diverge_firstn. fold i.
    now rewrite firstn_skipn.
  - rewrite Hsu. exact Hjoin.
Qed.

Lemma X11_witness :
  exists r : string,
    replace_url (fresh proj_sub_to_build ReplaceFalse ExternalFalse)
      (Py.join "/" (repeat ".." 1 ++ ["img"; "x.png"])) = ok r
    /\ urlparse.urljoin "/proj/build/out.css" r = ok "/proj/css/img/x.png"
    /\ urlparse.urljoin "/proj/css/sub/a.css" "../img/x.png"
       = ok "/proj/css/img/x.png".
Proof.
  apply (X11_default_mode_points_to_the_same_file
           (fresh proj_sub_to_build ReplaceFalse ExternalFalse) true
           ["proj"; "css"; "sub"] ["proj"; "build"] ["img"; "x.png"]
           "a.css" "out.css" 1).
  - reflexivity.
  - reflexivity.
  - reflexivity.
  - reflexivity.
  - reflexivity.
  - reflexivity.
  - reflexivity.
  - reflexivity.
  - cbn [List.length]. lia.
  - discriminate.
  - reflexivity.
  - intros tail. discriminate.
Defined.

(** The condition of X11 on the file referred to is needed: [a], seen
    from [/s.css], is [/a], a directory above the output
    [/a/b/out.css]; it is rewritten to [..], which from the output is
    [/a/], with a slash. *)
Lemma default_mode_directory_above_output :
  let self :=
    fresh {| b_env := plain_env;
             b_source_path := "s.css"; b_source_url := "/s.css";
             b_output_path := "a/b/out.css"; b_output_url := "/a/b/out.css" |}
      ReplaceFalse ExternalFalse in
  replace_url self "a" = ok ".."
  /\ urlparse.urljoin (output_url self) ".." = ok "/a/"
  /\ urlparse.urljoin (source_url self) "a" = ok "/a".
Proof. repeat split. Qed.

(* ===================================================================== *)
(** ** External mode and the life cycle of an instance *)
(* ===================================================================== *)

(** X12: in external mode the URL is read only through the path it is
    joined to: two URLs that [pathjoin] onto the source path gives the
    same file path are rewritten to the same result, failures
    included. *)
Theorem X12_external_mode_reads_the_joined_path
        {I : Imports} (self : CSSRewriteFilter) (u1 u2 : string) :
  replace self = ReplaceFalse ->
  external_is_not_False (external self) = true ->
  urlpath_pathjoin (source_path self) u1 = urlpath_pathjoin (source_path self) u2 ->
  replace_url self u1 = replace_url self u2.
Proof.
  intros Hr Hx Hp. unfold replace_url.
  rewrite Hr, Hx, !is_abs_url_false.
  cbn [replace_is_not_False negb]. unfold external_rewrite. rewrite Hp.
  destruct (external_assets self) as [a|]; [|reflexivity].
  cbn [getattr]. rewrite !bind_ok.
  destruct (versioned_folder a (urlpath_pathjoin (source_path self) u2))
    as [e|asset_path]; [reflexivity|].
  rewrite !bind_ok.
  destruct (external_replacement self asset_path) as [e|o] eqn:E;
    [reflexivity|].
  destruct (external_replacement_some self asset_path o E) as [r ->].
  reflexivity.
Qed.

Lemma X12_witness :
  replace_url (external_ready None) "../img/./x.png"
  = replace_url (external_ready None) "../img/x.png".
Proof.
  apply (X12_external_mode_reads_the_joined_path (I:=PyImports)
           (external_ready None) "../img/./x.png" "../img/x.png").
  - reflexivity.
  - reflexivity.
  - reflexivity.
Defined.

(** X13: the constructor does not set [replace_dict]: on an instance
    that [input] has not run on, whatever environment and contexts it
    has been given, [replace_url] raises [AttributeError] for every URL
    when [replace] is not [False]. *)
Theorem X13_replace_url_before_input
        {I : Imports} (r : ReplaceArg) (x : ExternalArg) (c : Constructed)
        (b : Binding) (u : string) :
  __init__ r x = ok c ->
  replace_is_not_False r = true ->
  replace_url (bound c b) u = raise (AttributeError "replace_dict").
Proof.
  intros H Hr. apply init_ok in H. subst c. unfold replace_url.
  cbn [bound fresh c_replace c_external replace replace_dict].
  rewrite Hr. reflexivity.
Qed.

Lemma X13_witness :
  replace_url (bound {| c_replace := ReplaceMapping [("old", "/new/")];
                        c_external := ExternalFalse |} css_to_build)
    "img/x.png"
  = raise (AttributeError "replace_dict").
Proof.
  apply (X13_replace_url_before_input (I:=PyImports)
           (ReplaceMapping [("old", "/new/")]) ExternalFalse).
  - reflexivity.
  - reflexivity.
Defined.

(* ===================================================================== *)
(** ** Default mode on URLs in resolved form *)
(* ===================================================================== *)

Lemma append_assoc_str (a b c : string) : (a ++ b) ++ c = a ++ (b ++ c).
Proof. induction a as [|x a IH]; cbn [append]; [reflexivity | now rewrite IH]. Qed.

Lemma append_empty_r (a : string) : a ++ "" = a.
Proof. induction a as [|x a IH]; cbn [append]; [reflexivity | now rewrite IH]. Qed.

Lemma join_cons_ne (w : string) (l : list string) :
  l <> [] -> Py.join "/" (w :: l) = w ++ "/" ++ Py.join "/" l.
Proof. destruct l; [congruence | reflexivity]. Qed.

Lemma join_app (l1 l2 : list string) :
  l1 <> [] -> l2 <> [] ->
  Py.join "/" (l1 ++ l2) = Py.join "/" l1 ++ "/" ++ Py.join "/" l2.
Proof.
  intros H1 H2. induction l1 as [|w l1 IH]; [congruence|].
  destruct l1 as [|v l1].
  - cbn [app]. now rewrite join_cons_ne.
  - change ((w :: v :: l1) ++ l2)%list with (w :: ((v :: l1) ++ l2))%list.
    rewrite join_cons_ne by discriminate.
    rewrite IH by discriminate.
    rewrite (join_cons_ne w (v :: l1)) by discriminate.
    now rewrite !append_assoc_str.
Qed.

(** [join] undoes [split], whatever the string. *)
Lemma join_split (s : string) : Py.join "/" (Py.split "/" s) = s.
Proof.
  induction s as [|a s IH]; [reflexivity|]. cbn [Py.split].
  destruct (Ascii.eqb_spec a "/") as [->|_].
  - rewrite join_cons_ne by apply split_nonempty. now rewrite IH.
  - destruct (Py.split "/" s) as [|w ws] eqn:E.
    + now elim (split_nonempty "/" s).
    + destruct ws as [|w2 ws].
      * cbn [Py.join] in *. now rewrite <- IH.
      * rewrite join_cons in *. rewrite <- IH. reflexivity.
Qed.

(** Splitting a joined path that some text follows: the leading
    segments come out as they went in. *)
Lemma split_join_then (l named : list string) (rest : string) :
  forallb (fun w => negb (Py.contains "/" w)) l = true ->
  named <> [] ->
  Py.split "/" (Py.join "/" (l ++ named) ++ rest)
  = (l ++ Py.split "/" (Py.join "/" named ++ rest))%list.
Proof.
  intros Hl Hn. induction l as [|w l IH]; [reflexivity|].
  cbn [forallb] in Hl. apply andb_true_iff in Hl. destruct Hl as [Hw Hl].
  apply negb_true_iff in Hw.
  change ((w :: l) ++ named)%list with (w :: (l ++ named))%list.
  rewrite join_cons_ne by (destruct l; [exact Hn | discriminate]).
  rewrite append_assoc_str.
  change ("/" ++ Py.join "/" (l ++ named)) with (String "/" (Py.join "/" (l ++ named))).
  cbn [append]. rewrite (split_cut _ _ _ Hw). cbn [app]. f_equal.
  now apply IH.
Qed.

(** Joining segments and the pieces of a text is joining the segments
    and appending the text. *)
Lemma join_then_split (l : list string) (v : string) :
  Py.join "/" (l ++ Py.split "/" v)
  = match l with
    | [] => v
    | _ => Py.join "/" l ++ "/" ++ v
    end.
Proof.
  destruct l as [|w l]; cbn [app]; [apply join_split|].
  change (w :: (l ++ Py.split "/" v))%list with ((w :: l) ++ Py.split "/" v)%list.
  rewrite join_app; [|discriminate | apply split_nonempty].
  now rewrite join_split.
Qed.

(** Without scheme and network location, [urlunparse] appends the
    written parameters, query and fragment to the path. *)
Lemma urlunparse_relative (p pa q fr : string) :
  urlparse.urlunparse "" "" p pa q fr
  = p ++ urlparse.urlunparse "" "" "" pa q fr.
Proof.
  unfold urlparse.urlunparse, urlparse.urlunsplit.
  cbn [Py.truthy orb andb].
  destruct (Py.truthy pa), (Py.truthy q), (Py.truthy fr);
    cbn [append]; rewrite ?append_assoc_str, ?append_empty_r; reflexivity.
Qed.

(** What [urlunparse] appends is empty or starts with one of the three
    delimiters. *)
Lemma urlunparse_suffix (pa q fr : string) :
  urlparse.urlunparse "" "" "" pa q fr = ""
  \/ exists (c : ascii) (rest : string),
      urlparse.urlunparse "" "" "" pa q fr = String c rest
      /\ In c [";"; "?"; "#"]%char.
Proof.
  unfold urlparse.urlunparse, urlparse.urlunsplit.
  cbn [Py.truthy orb andb].
  destruct (Py.truthy pa), (Py.truthy q), (Py.truthy fr); cbn [append In];
    eauto 8.
Qed.

(** No [..] is deleted when each one follows an empty segment or
    another [..]. *)
Lemma del_dotdot_none_leading (P R : list string) :
  Forall (fun w => w = "" \/ w = "..") P -> ~ In ".." R ->
  urlparse.del_dotdot (P ++ R) = None.
Proof.
  intros HP HR. induction HP as [|p P Hp HP IH]; cbn [app].
  - now apply del_dotdot_none.
  - destruct (P ++ R)%list as [|cur tl] eqn:E; [reflexivity|].
    destruct tl as [|nxt tl]; [reflexivity|].
    change (urlparse.del_dotdot (p :: cur :: nxt :: tl))
      with (if String.eqb cur ".." && negb (Py.mem p [""; ".."])
            then Some (nxt :: tl)
            else option_map (cons p) (urlparse.del_dotdot (cur :: nxt :: tl))).
    rewrite IH.
    assert (Hm : Py.mem p [""; ".."] = true).
    { unfold Py.mem. cbn [existsb]. destruct Hp as [->| ->]; reflexivity. }
    rewrite Hm, andb_false_r. reflexivity.
Qed.

(** As [collapse_ascents], with any tail that is stable once the
    ascents are used up. *)
Lemma collapse_ascents_then (O A R : list string) (fuel : nat) :
  ~ In ".." A ->
  Forall (fun w => w <> "" /\ w <> "..") O ->
  R <> [] -> urlparse.del_dotdot (A ++ R) = None ->
  (List.length O <= fuel)%nat ->
  urlparse.collapse fuel (A ++ O ++ repeat ".." (List.length O) ++ R)
  = (A ++ R)%list.
Proof.
  revert fuel. induction O as [|x O IH] using rev_ind; intros fuel HA HO HR HR2 Hf.
  - cbn [List.length repeat app]. destruct fuel; cbn [urlparse.collapse];
      [reflexivity | now rewrite HR2].
  - rewrite length_app in *. cbn [List.length] in *.
    rewrite Nat.add_1_r in *. destruct fuel as [|fuel]; [lia|].
    apply Forall_app in HO. destruct HO as [HO Hx].
    inversion Hx as [|? ? [Hx1 Hx2] _]; subst.
    cbn [repeat urlparse.collapse].
    replace (A ++ (O ++ [x]) ++ (".." :: repeat ".." (List.length O)) ++ R)%list
      with ((A ++ O) ++ x :: ".." :: (repeat ".." (List.length O) ++ R))%list
      by (now rewrite <- !app_assoc).
    rewrite del_dotdot_first; try assumption.
    + rewrite <- app_assoc. apply IH; try assumption. lia.
    + intros H. apply in_app_or in H. destruct H as [H|H]; [tauto|].
      rewrite Forall_forall in HO. apply HO in H. tauto.
    + destruct R; [congruence|]. destruct (repeat ".." (List.length O)); discriminate.
Qed.

(** The closing tests act only on a last segment [..]. *)
Lemma close_dotdot_last (l : list string) :
  last l "" <> ".." -> urlparse.close_dotdot l = l.
Proof.
  intros Hl. unfold urlparse.close_dotdot.
  destruct (list_eq_dec string_dec l [""; ".."]) as [->|_].
  - now elim Hl.
  - destruct (String.eqb_spec (last l "") "..") as [E|_]; [contradiction|].
    now rewrite andb_false_r.
Qed.

(** What [resolved_segments] says, piece by piece. *)
Lemma resolved_segments_inv (dirs : list string) (j : nat) (named : list string) :
  resolved_segments dirs j named = true ->
  exists first others,
    named = first :: others
    /\ Py.truthy first = true
    /\ forallb (fun w => negb (Py.contains "/" w)) named = true
    /\ ~ In "." named /\ ~ In ".." named
    /\ ((0 < j)%nat -> (j <= List.length dirs)%nat ->
        first <> nth (List.length dirs - j) dirs "").
Proof.
  unfold resolved_segments. destruct named as [|first others]; [discriminate|].
  intros H. apply andb_true_iff in H. destruct H as [H Hre].
  apply andb_true_iff in H. destruct H as [Ht Hall].
  exists first, others. split; [reflexivity|]. split; [exact Ht|].
  rewrite forallb_forall in Hall.
  assert (Hw : forall w, In w (first :: others) ->
                         Py.contains "/" w = false /\ w <> "." /\ w <> "..").
  { intros w Hin. specialize (Hall w Hin).
    apply andb_true_iff in Hall. destruct Hall as [Hall H3].
    apply andb_true_iff in Hall. destruct Hall as [H1 H2].
    apply negb_true_iff in H1, H2, H3.
    repeat split; [exact H1 | now apply String.eqb_neq | now apply String.eqb_neq]. }
  split; [|split; [|split]].
  - apply forallb_forall. intros w Hin. apply negb_true_iff. now apply Hw.
  - intros H. apply Hw in H. tauto.
  - intros H. apply Hw in H. tauto.
  - intros H0 Hj.
    destruct (Nat.ltb_spec 0 j) as [_|]; [|lia].
    destruct (Nat.leb_spec j (List.length dirs)) as [_|]; [|lia].
    cbn [andb] in Hre. apply negb_true_iff in Hre. now apply String.eqb_neq.
Qed.

(** The last element of a list that ends in a non-empty list is one of
    that list. *)
Lemma last_app_in (l1 l2 : list string) (d : string) :
  l2 <> [] -> In (last (l1 ++ l2) d) l2.
Proof.
  intros H2. destruct (exists_last H2) as [l0 [z ->]].
  rewrite app_assoc, last_last. apply in_or_app. right. now left.
Qed.

Lemma repeat_dotdot_no_slash (j : nat) :
  forallb (fun w => negb (Py.contains "/" w)) (repeat ".." j) = true.
Proof. induction j as [|j IH]; [reflexivity|]. cbn [repeat forallb]. now rewrite IH. Qed.

(** A path of ascents and named segments is not empty and does not
    start at the root. *)
Lemma resolved_path_relative (j : nat) (first : string) (others : list string) :
  Py.truthy first = true -> Py.contains "/" first = false ->
  Py.startswith (Py.join "/" (repeat ".." j ++ first :: others)) "/" = false
  /\ Py.truthy (Py.join "/" (repeat ".." j ++ first :: others)) = true.
Proof.
  intros Ht Hs. destruct j as [|j]; cbn [repeat app].
  - destruct first as [|a first]; [discriminate Ht|].
    cbn [Py.contains] in Hs. apply orb_false_iff in Hs. destruct Hs as [Ha _].
    destruct others; [|rewrite join_cons]; cbn [Py.join append Py.startswith Py.truthy];
      rewrite Ascii.eqb_sym, Ha; split; reflexivity.
  - rewrite join_cons_ne by (destruct (repeat ".." j); discriminate).
    split; reflexivity.
Qed.

(** [urljoin] onto a file URL of a relative URL that [urlparse] reads
    as a path of ascents and named segments: the ascents go up from the
    file's directory, as far as there are directories, and the written
    parameters, query and fragment follow the path. *)
Lemma urljoin_resolved (rooted : bool) (dirs named : list string)
      (name u pa q fr : string) (j : nat) :
  forallb plain_segment dirs = true -> plain_segment name = true ->
  urlparse.urlparse u ""
  = ok {| urlparse.scheme := ""; urlparse.netloc := "";
          urlparse.path := Py.join "/" (repeat ".." j ++ named);
          urlparse.params := pa; urlparse.query := q;
          urlparse.fragment := fr |} ->
  Py.truthy u = true ->
  resolved_segments dirs j named = true ->
  urlparse.urljoin (url_in rooted dirs name) u
  = ok (Py.join "/" ((if rooted then [""] else [])
                     ++ firstn (List.length dirs - j) dirs
                     ++ repeat ".." (j - List.length dirs) ++ named)
        ++ urlparse.urlunparse "" "" "" pa q fr).
Proof.
  intros Hd Hname Hparse Htu Hres.
  destruct (resolved_segments_inv dirs j named Hres)
    as (first & others & -> & Hft & Hslash & Hnodot & Hnodd & _).
  assert (Hfs : Py.contains "/" first = false).
  { cbn [forallb] in Hslash. apply andb_true_iff in Hslash.
    destruct Hslash as [H _]. now apply negb_true_iff in H. }
  destruct (resolved_path_relative j first others Hft Hfs) as [Hrel Htp].
  unfold url_in.
  assert (Hb : forallb plain_segment (dirs ++ [name]) = true).
  { apply forallb_plain_app; [exact Hd|]. cbn [forallb]. now rewrite Hname. }
  assert (Hbn : (dirs ++ [name])%list <> []) by (destruct dirs; discriminate).
  unfold urlparse.urljoin.
  rewrite (anchored_truthy rooted _ Hbn Hb), Htu. cbn [negb].
  rewrite (urlparse_path_only (anchored rooted (dirs ++ [name])) "");
    try (apply anchored_without; [cbn [In]; tauto | exact Hb]);
    [|now apply anchored_no_netloc].
  rewrite bind_ok. cbn [urlparse.scheme]. rewrite Hparse, bind_ok.
  cbn [urlparse.scheme urlparse.netloc urlparse.path urlparse.params
       urlparse.query urlparse.fragment].
  change (negb (String.eqb "" "") || negb (Py.mem "" urlparse.uses_relative))
    with false.
  change (Py.mem "" urlparse.uses_netloc && Py.truthy "") with false.
  change (Py.mem "" urlparse.uses_netloc) with true.
  cbn iota. rewrite Hrel, Htp. cbn [negb andb].
  rewrite (split_anchored rooted _ Hbn Hb).
  rewrite (split_join (repeat ".." j ++ first :: others));
    [| destruct (repeat ".." j); discriminate
     | rewrite forallb_app, repeat_dotdot_no_slash; exact Hslash ].
  rewrite (app_assoc _ dirs [name]), removelast_last.
  set (n := List.length dirs) in *.
  set (root := if rooted then [""] else []).
  set (named := first :: others) in *.
  set (A := (root ++ firstn (n - j) dirs)%list).
  set (O := skipn (n - j) dirs).
  set (R := (repeat ".." (j - n) ++ named)%list).
  assert (HO : List.length O = (n - (n - j))%nat).
  { unfold O. apply length_skipn. }
  assert (Hseg : ((root ++ dirs) ++ repeat ".." j ++ named)%list
                 = (A ++ O ++ repeat ".." (List.length O) ++ R)%list).
  { rewrite HO. unfold A, O, R. rewrite <- !app_assoc. f_equal.
    rewrite (app_assoc (firstn _ dirs) (skipn _ dirs)), firstn_skipn. f_equal.
    rewrite (app_assoc (repeat _ _) (repeat _ _)), <- repeat_app. do 2 f_equal. lia. }
  rewrite Hseg.
  destruct (plain_segments_no_dot _ Hd) as [D1 D2].
  assert (HA1 : ~ In "." A /\ ~ In ".." A).
  { unfold A, root. split; intros H; apply in_app_or in H;
      destruct H as [H|H];
      try (destruct rooted; cbn [In] in H; intuition discriminate);
      apply in_firstn in H; contradiction. }
  destruct HA1 as [A1 A2].
  assert (HO1 : ~ In "." O).
  { unfold O. intros H. apply D1. rewrite <- (firstn_skipn (n - j) dirs).
    apply in_or_app. now right. }
  assert (HOn : Forall (fun w => w <> "" /\ w <> "..") O).
  { unfold O. apply plain_segments_named. now apply forallb_skipn. }
  assert (HRn : R <> []).
  { unfold R, named. destruct (repeat ".." (j - n)); discriminate. }
  assert (HR1 : ~ In "." R).
  { unfold R. intros H. apply in_app_or in H. destruct H as [H|H];
      [apply repeat_spec in H; discriminate H | contradiction]. }
  assert (Hne : (A ++ O ++ repeat ".." (List.length O) ++ R)%list <> []).
  { intros H.
    apply app_eq_nil in H. destruct H as [_ H].
    apply app_eq_nil in H. destruct H as [_ H].
    apply app_eq_nil in H. destruct H as [_ H]. contradiction. }
  assert (Hnodot' : ~ In "." (A ++ O ++ repeat ".." (List.length O) ++ R)).
  { intros H.
    apply in_app_or in H. destruct H as [H|H]; [contradiction|].
    apply in_app_or in H. destruct H as [H|H]; [contradiction|].
    apply in_app_or in H. destruct H as [H|H]; [|contradiction].
    apply repeat_spec in H. discriminate H. }
  assert (Hstable : urlparse.del_dotdot (A ++ R) = None).
  { destruct (Nat.le_gt_cases j n) as [Hle|Hgt].
    - apply del_dotdot_none. unfold R.
      replace (j - n)%nat with 0%nat by lia. cbn [repeat app].
      intros H. apply in_app_or in H. tauto.
    - unfold A, R. replace (n - j)%nat with 0%nat by lia.
      cbn [firstn]. rewrite app_nil_r, app_assoc.
      apply del_dotdot_none_leading; [|exact Hnodd].
      apply Forall_app. split.
      + unfold root. destruct rooted; repeat constructor.
      + apply Forall_forall. intros w Hw. apply repeat_spec in Hw. now right. }
  rewrite (blank_last_dot_id _ Hne Hnodot'), (remove_dots_id _ Hnodot').
  rewrite collapse_ascents_then; try assumption;
    [|rewrite !length_app; lia].
  rewrite close_dotdot_last.
  - rewrite urlunparse_relative. unfold A, R. now rewrite <- !app_assoc.
  - intros E. apply Hnodd. rewrite <- E. unfold R.
    rewrite app_assoc. apply last_app_in. discriminate.
Qed.

Lemma truthy_app (a b : string) : Py.truthy a = true -> Py.truthy (a ++ b) = true.
Proof. destruct a; [discriminate | reflexivity]. Qed.

(** A text that begins with a non-empty segment free of '/' does not
    begin with '/'. *)
Lemma segment_first_not_rooted (w : string) (l : list string) (rest : string) :
  Py.truthy w = true -> Py.contains "/" w = false ->
  Py.startswith (Py.join "/" (w :: l) ++ rest) "/" = false.
Proof.
  intros Ht Hs. destruct w as [|a w]; [discriminate Ht|].
  cbn [Py.contains] in Hs. apply orb_false_iff in Hs. destruct Hs as [Ha _].
  destruct l; [|rewrite join_cons]; cbn [Py.join append Py.startswith];
    rewrite Ascii.eqb_sym, Ha; reflexivity.
Qed.

(** The first piece of a text, when a delimiter other than '/' comes
    before any '/', contains that delimiter. *)
Lemma hd_split_delimiter (c : ascii) (x rest : string) :
  c <> "/"%char -> Py.contains "/" x = false ->
  Py.contains c (hd "" (Py.split "/" (x ++ String c rest))) = true.
Proof.
  intros Hc. induction x as [|a x IH]; cbn [Py.contains append Py.split]; intros Hx.
  - destruct (Ascii.eqb_spec c "/") as [E|_]; [contradiction|].
    destruct (Py.split "/" rest); cbn [hd Py.contains];
      now rewrite Ascii.eqb_refl.
  - apply orb_false_iff in Hx. destruct Hx as [Ha Hx]. rewrite Ha.
    specialize (IH Hx).
    destruct (Py.split "/" (x ++ String c rest)) as [|w ws]; cbn [hd Py.contains] in *.
    + discriminate IH.
    + now rewrite IH, orb_true_r.
Qed.

(** Where a path that follows the first [k] directories diverges from
    the directories. *)
Lemma diverge_at (dirs X : list string) (k : nat) :
  (k <= List.length dirs)%nat -> X <> [] ->
  ((k < List.length dirs)%nat -> hd "" X <> nth k dirs "") ->
  urlpath.diverge dirs (firstn k dirs ++ X) = k.
Proof.
  revert k. induction dirs as [|d dirs IH]; intros k Hk HX Hhd.
  - cbn [List.length] in Hk. replace k with 0%nat by lia. reflexivity.
  - destruct k as [|k]; cbn [firstn app urlpath.diverge].
    + destruct X as [|x X]; [congruence|].
      cbn [List.length hd nth] in Hhd.
      destruct (String.eqb_spec d x) as [E|_]; [|reflexivity].
      elim Hhd; [lia | now symmetry].
    + rewrite String.eqb_refl. f_equal. cbn [List.length] in Hk.
      apply IH; [lia | exact HX|].
      intros Hlt. apply Hhd. cbn [List.length]. lia.
Qed.

(** [relpath] from a file to a path that keeps the file's first [k]
    directories and then goes another way: one ascent per directory
    left, then the rest of the path. *)
Lemma relpath_resolved (rooted : bool) (dirs W : list string)
      (name dest : string) (k m : nat) :
  forallb plain_segment dirs = true -> plain_segment name = true ->
  (k <= List.length dirs)%nat -> W <> [] ->
  ((0 < m)%nat -> k = 0%nat) ->
  (m = 0%nat -> (k < List.length dirs)%nat -> hd "" W <> nth k dirs "") ->
  Py.split "/" (if Py.startswith dest "/" then dest else "/" ++ dest)
  = ("" :: firstn k dirs ++ repeat ".." m ++ W)%list ->
  urlpath.relpath (url_in rooted dirs name) dest
  = Py.join "/" (repeat ".." (List.length dirs - k) ++ repeat ".." m ++ W).
Proof.
  intros Hd Hname Hk HW Hm Hhd Hsplit. unfold url_in.
  assert (Hb : forallb plain_segment (dirs ++ [name]) = true).
  { apply forallb_plain_app; [exact Hd|]. cbn [forallb]. now rewrite Hname. }
  assert (Hbn : (dirs ++ [name])%list <> []) by (destruct dirs; discriminate).
  unfold urlpath.relpath.
  rewrite (anchored_rooted rooted _ Hbn Hb), (split_anchored true _ Hbn Hb), Hsplit.
  cbn [app].
  change ("" :: dirs ++ [name])%list with (("" :: dirs) ++ [name])%list.
  rewrite removelast_last. cbn [hd]. cbn [String.eqb negb].
  unfold urlpath.climb. cbn [urlpath.diverge String.eqb List.length skipn].
  rewrite diverge_at; [ | exact Hk | | ].
  - cbn [Nat.sub].
    replace (skipn k (firstn k dirs ++ repeat ".." m ++ W))
      with (repeat ".." m ++ W)%list.
    + destruct (repeat ".." (List.length dirs - k) ++ repeat ".." m ++ W)%list
        eqn:E; [|reflexivity].
      apply app_eq_nil in E. destruct E as [_ E].
      apply app_eq_nil in E. destruct E as [_ E]. contradiction.
    + rewrite <- (firstn_length_le dirs Hk) at 1. now rewrite skipn_prefix.
  - destruct (repeat ".." m); [exact HW | discriminate].
  - intros Hlt. destruct m as [|m]; cbn [repeat app hd].
    + now apply Hhd.
    + assert (k = 0%nat) by (apply Hm; lia). subst k.
      destruct (plain_segments_no_dot _ Hd) as [_ D2].
      intros E. apply D2. rewrite E. apply nth_In. exact Hlt.
Qed.

(** C6 (as the code has it): in default mode, when the source and the
    output are files of one directory (their URLs paths of plain
    segments, both from the root or both not), a relative URL written
    in resolved form is returned unchanged: a URL that [urlparse] reads
    as having no scheme and no network location, that [urlunparse]
    writes back as it is, and whose path is leading [..] segments
    followed by segments as [resolved_segments] has them. *)
Theorem C6_same_directory_keeps_resolved_url
        (self : CSSRewriteFilter) (rooted : bool) (dirs named : list string)
        (source_name output_name u pa q fr : string) (j : nat) :
  replace self = ReplaceFalse -> external self = ExternalFalse ->
  forallb plain_segment dirs = true ->
  plain_segment source_name = true -> plain_segment output_name = true ->
  source_url self = url_in rooted dirs source_name ->
  output_url self = url_in rooted dirs output_name ->
  urlparse.urlparse u ""
  = ok {| urlparse.scheme := ""; urlparse.netloc := "";
          urlparse.path := Py.join "/" (repeat ".." j ++ named);
          urlparse.params := pa; urlparse.query := q;
          urlparse.fragment := fr |} ->
  urlparse.urlunparse "" "" (Py.join "/" (repeat ".." j ++ named)) pa q fr = u ->
  resolved_segments dirs j named = true ->
  replace_url self u = ok u.
Proof.
  intros Hr Hx Hd Hsrc Hout Hsu Hou Hparse Hwrite Hres.
  destruct (resolved_segments_inv dirs j named Hres)
    as (first & others & Hnamed & Hft & Hslash & Hnodot & Hnodd & Hleft).
  assert (Hfs : Py.contains "/" first = false).
  { rewrite Hnamed in Hslash. cbn [forallb] in Hslash.
    apply andb_true_iff in Hslash. destruct Hslash as [H _].
    now apply negb_true_iff in H. }
  assert (Hnn : named <> []) by (rewrite Hnamed; discriminate).
  set (S := urlparse.urlunparse "" "" "" pa q fr) in *.
  rewrite urlunparse_relative in Hwrite. fold S in Hwrite.
  assert (Htu : Py.truthy u = true).
  { rewrite <- Hwrite. apply truthy_app. rewrite Hnamed.
    now apply resolved_path_relative. }
  set (n := List.length dirs) in *.
  set (k := (n - j)%nat). set (m := (j - n)%nat).
  set (L := (firstn k dirs ++ repeat ".." m)%list).
  set (W := Py.split "/" (Py.join "/" named ++ S)).
  assert (HL : forallb (fun w => negb (Py.contains "/" w)) L = true).
  { unfold L. rewrite forallb_app, repeat_dotdot_no_slash, andb_true_r.
    apply forallb_firstn. apply plain_segments_without; [now left | exact Hd]. }
  unfold replace_url. rewrite Hr, Hx, is_abs_url_false.
  cbn [replace_is_not_False external_is_not_False negb].
  unfold default_rewrite. cbn [urlparse_urljoin urlpath_relpath PyImports].
  rewrite Hsu, Hou.
  rewrite (urljoin_resolved rooted dirs named source_name u pa q fr j
             Hd Hsrc Hparse Htu Hres), bind_ok.
  fold n k m S. f_equal.
  rewrite (relpath_resolved rooted dirs W output_name _ k m Hd Hout).
  - (* the relative path is the URL as written *)
    fold n. replace (repeat ".." (n - k) ++ repeat ".." m ++ W)%list
      with (repeat ".." j ++ W)%list.
    + unfold W. rewrite join_then_split. rewrite <- Hwrite.
      destruct (repeat ".." j) as [|r rs] eqn:E; [reflexivity|].
      rewrite <- E. rewrite join_app; [|rewrite E; discriminate | exact Hnn].
      now rewrite !append_assoc_str.
    + rewrite app_assoc, <- repeat_app. do 2 f_equal. unfold k, m. lia.
  - unfold k. lia.
  - apply split_nonempty.
  - unfold k, m. lia.
  - (* after the ascents the path does not return into the directory left *)
    intros Hm0 Hkn.
    assert (Hj : (0 < j)%nat /\ (j <= n)%nat) by (unfold k, m in *; lia).
    destruct Hj as [Hj0 Hjn]. specialize (Hleft Hj0 Hjn). fold n k in Hleft.
    assert (Hin : In (nth k dirs "") dirs) by (apply nth_In; exact Hkn).
    rewrite forallb_forall in Hd. specialize (Hd _ Hin).
    destruct (plain_segment_inv _ Hd) as (_ & _ & _ & Hq & Hf & Hp & _).
    unfold W. rewrite Hnamed. destruct others as [|o others].
    + cbn [Py.join]. destruct (urlunparse_suffix pa q fr) as [E|(c & rest & E & Hc)];
        fold S in E; rewrite E.
      * rewrite append_empty_r, (split_without _ _ Hfs). exact Hleft.
      * intros Heq.
        assert (Hcs : c <> "/"%char)
          by (intros ->; cbn [In] in Hc; intuition discriminate).
        pose proof (hd_split_delimiter c first rest Hcs Hfs) as Hcont.
        rewrite Heq in Hcont. cbn [In] in Hc.
        destruct Hc as [<-|[<-|[<-|[]]]]; congruence.
    + rewrite join_cons, !append_assoc_str.
      change ("/" ++ Py.join "/" (o :: others) ++ S)
        with (String "/" (Py.join "/" (o :: others) ++ S)).
      rewrite (split_cut _ _ _ Hfs). exact Hleft.
  - (* the resolved URL, anchored at the root and split *)
    assert (Hne : (L ++ named)%list <> []).
    { rewrite Hnamed. destruct L; discriminate. }
    assert (Hfirst : exists w l, (L ++ named)%list = w :: l
                                 /\ Py.truthy w = true
                                 /\ Py.contains "/" w = false).
    { destruct L as [|w l] eqn:EL.
      - rewrite Hnamed. exists first, others. now repeat split.
      - exists w, (l ++ named)%list. split; [reflexivity|].
        cbn [forallb] in HL. apply andb_true_iff in HL. destruct HL as [Hw _].
        apply negb_true_iff in Hw. split; [|exact Hw].
        assert (Hin : In w (firstn k dirs ++ repeat ".." m)).
        { fold L. rewrite EL. now left. }
        apply in_app_or in Hin. destruct Hin as [Hin|Hin].
        + apply in_firstn in Hin. rewrite forallb_forall in Hd.
          now destruct (plain_segment_inv _ (Hd _ Hin)) as (Ht & _).
        + apply repeat_spec in Hin. now subst w. }
    destruct Hfirst as (w & l & Ewl & Hwt & Hws).
    assert (Hanchor :
              (if Py.startswith
                    (Py.join "/" ((if rooted then [""] else []) ++ L ++ named) ++ S)
                    "/"
               then Py.join "/" ((if rooted then [""] else []) ++ L ++ named) ++ S
               else "/" ++ Py.join "/" ((if rooted then [""] else []) ++ L ++ named)
                        ++ S)
              = String "/" (Py.join "/" (L ++ named) ++ S)).
    { destruct rooted; cbn [app].
      - rewrite join_rooted by exact Hne. reflexivity.
      - rewrite Ewl, (segment_first_not_rooted w l S Hwt Hws). reflexivity. }
    unfold L in Hanchor. rewrite <- !app_assoc in Hanchor. rewrite Hanchor.
    change (String "/" (Py.join "/" (firstn k dirs ++ repeat ".." m ++ named) ++ S))
      with ("" ++ String "/" (Py.join "/" (firstn k dirs ++ repeat ".." m ++ named) ++ S)).
    rewrite split_cut by reflexivity. f_equal.
    rewrite (app_assoc (firstn k dirs)). fold L.
    rewrite (split_join_then L named S HL Hnn). unfold L, W.
    now rewrite <- app_assoc.
Qed.

Lemma C6_witness :
  replace_url (fresh same_directory ReplaceFalse ExternalFalse)
    "../img/x.png?v=1#top"
  = ok "../img/x.png?v=1#top".
Proof.
  apply (C6_same_directory_keeps_resolved_url
           (fresh same_directory ReplaceFalse ExternalFalse)
           true ["css"] ["img"; "x.png"] "a.css" "out.css"
           "../img/x.png?v=1#top" "" "v=1" "top" 1).
  - reflexivity.
  - reflexivity.
  - reflexivity.
  - reflexivity.
  - reflexivity.
  - reflexivity.
  - reflexivity.
  - reflexivity.
  - reflexivity.
  - reflexivity.
Defined.

(** C6 fails as stated: with source and output both in [/css/], these
    relative URLs come back changed: a [.] segment is dropped, a [..]
    after a name is resolved, an ascent that returns into [css] is
    undone, an empty query loses its '?', and the empty URL becomes the
    name of the source file. *)
Lemma C6_counterexample :
  replace_url (fresh same_directory ReplaceFalse ExternalFalse) "./x.png"
  = ok "x.png"
  /\ replace_url (fresh same_directory ReplaceFalse ExternalFalse) "a/../x.png"
     = ok "x.png"
  /\ replace_url (fresh same_directory ReplaceFalse ExternalFalse) "../css/x.png"
     = ok "x.png"
  /\ replace_url (fresh same_directory ReplaceFalse ExternalFalse) "x.eot?#iefix"
     = ok "x.eot#iefix"
  /\ replace_url (fresh same_directory ReplaceFalse ExternalFalse) ""
     = ok "a.css"
  /\ replace_url (fresh same_directory ReplaceFalse ExternalFalse) "./x.png"
     <> ok "./x.png".
Proof. repeat split; try reflexivity. discriminate. Qed.
